(** * go-observability: temperature by Brazilian postal code (CEP)

    A shallow embedding of the two Go services of the repository,

    - [ServiceA] (service-a/main.go): the edge service that validates the
      postal code and forwards the request;
    - [ServiceB] (service-b/main.go): the orchestration service that resolves
      the postal code to a locality, the locality to a temperature, and
      converts the temperature to three scales;

    together with the properties of the request pipeline.

    Conventions of the embedding.

    - A Go [string] is a sequence of bytes: [string] of the Standard Library
      (a list of 8-bit [ascii]); [len] is [String.length].
    - A Go [float64] is the kernel's binary64 [PrimFloat.float]; a product
      followed by a sum is rounded twice (no fused multiply-add).
    - A Go [(T, error)] return is a [result T].
    - The process environment and the network are a [World]; a function that
      reads the environment or calls [httpClient.Do] lives in the monad [IO],
      which reads the world and appends every request handed to the HTTP
      client to a log.
    - encoding/json, net/url and gin's binding are libraries outside the
      repository: they are interfaces (type classes) here, and every theorem
      holds for all their implementations.
    - The OpenTelemetry spans ([tracer.Start], [span.SetAttributes],
      [span.RecordError], [span.End]) never influence the reply of a handler
      and are left out. *)

From Stdlib Require Import PrimFloat.
From Stdlib Require Import String Ascii List ZArith Bool Arith Lia.
Import ListNotations.
Set Warnings "-register-all,-inexact-float".
Local Open Scope string_scope.
Local Open Scope nat_scope.

(** ** Go basics *)

Module Go.

(** Values of Go's [error] interface that the two services can observe. *)
Inductive error : Type :=
| LibraryError (pkg msg : string)   (* an error returned by a library call *)
| CEPNotFound                       (* fmt.Errorf("CEP not found") *)
| WeatherStatus (code : Z).         (* fmt.Errorf("weather API returned status %d", code) *)

(** A Go return [(T, error)]: [Ok v] is [(v, nil)], [Err e] is [(_, e)]. *)
Inductive result (T : Type) : Type :=
| Ok (v : T)
| Err (e : error).
Arguments Ok {T} v.
Arguments Err {T} e.

Definition float64 : Set := PrimFloat.float.

(** [interface{}] as filled by encoding/json. *)
Inductive any : Type :=
| Nil
| Bool (b : bool)
| Float64 (f : float64)
| String_ (s : string)
| Slice (l : list any)
| Map (m : list (string * any)).

End Go.
Import Go.

(** ** The fragment of package regexp that [validateCEP] uses *)

Module regexp.

(** Syntax trees of the operators that occur in the pattern [^\d{8}$]
    (no flags: [^] and [$] are the beginning and the end of the text). *)
Inductive Regexp : Type :=
| BeginText                          (* ^ *)
| EndText                            (* $ *)
| CharClass (lo hi : ascii)          (* [lo-hi] *)
| Concat (r1 r2 : Regexp)
| Repeat (r : Regexp) (n : nat).     (* r{n} *)

(** [\d] is the Perl class [[0-9]]: ASCII only. *)
Definition Digit : Regexp := CharClass "0" "9".

Definition in_class (lo hi c : ascii) : bool :=
  (nat_of_ascii lo <=? nat_of_ascii c) && (nat_of_ascii c <=? nat_of_ascii hi).

(** [ends r s i]: the positions at which a match of [r] that starts at
    position [i] of [s] can end. *)
Fixpoint ends (r : Regexp) (s : string) : nat -> list nat :=
  match r with
  | BeginText => fun i => if i =? 0 then [i] else []
  | EndText => fun i => if i =? String.length s then [i] else []
  | CharClass lo hi => fun i =>
      match String.get i s with
      | Some c => if in_class lo hi c then [S i] else []
      | None => []
      end
  | Concat r1 r2 => fun i => flat_map (ends r2 s) (ends r1 s i)
  | Repeat r' n => fun i => Nat.iter n (flat_map (ends r' s)) [i]
  end.

Definition nonempty {A : Type} (l : list A) : bool :=
  match l with [] => false | _ :: _ => true end.

(** [regexp.MatchString]: the pattern matches somewhere in [s]. The matcher
    works on bytes; on a class of ASCII characters this agrees with Go's
    matching on runes, since no byte of a multi-byte or invalid encoding is
    below 128. *)
Definition MatchString (pattern : Regexp) (s : string) : bool :=
  existsb (fun i => nonempty (ends pattern s i)) (seq 0 (S (String.length s))).

End regexp.

(** ** Libraries outside the repository: their interfaces *)

Module json.

(** [json.NewDecoder(r).Decode(&v)] on a reader holding [body], for [v] a
    zero value of type [T]: the decoded value, or the decoder's error. *)
Class Decoder (T : Type) : Type := Decode : string -> result T.

(** [json.Marshal(v)]. *)
Class Encoder (T : Type) : Type := Marshal : T -> result string.

End json.

Module url.

(** [url.Parse]: [None] when the URL parses, the error otherwise. *)
Class Parser : Type := Parse : string -> option error.

End url.

Module http.

Definition StatusOK : Z := 200.
Definition StatusNotFound : Z := 404.
Definition StatusUnprocessableEntity : Z := 422.
Definition StatusInternalServerError : Z := 500.

Record Request : Type := mkRequest {
  Method : string;
  URL : string;
  Header : list (string * string);
  RequestBody : option string
}.

Record Response : Type := mkResponse {
  StatusCode : Z;
  Body : string
}.

(** [http.NewRequestWithContext(ctx, method, url, body)] for a non-nil
    context and one of the methods GET and POST: it fails exactly when the
    URL does not parse. *)
Definition NewRequestWithContext `{url.Parser}
    (method u : string) (body : option string) : result Request :=
  match url.Parse u with
  | Some e => Err e
  | None => Ok (mkRequest method u [] body)
  end.

(** [req.Header.Set(key, value)]. *)
Definition Header_Set (req : Request) (key value : string) : Request :=
  mkRequest (Method req) (URL req)
    ((key, value) :: filter (fun kv => negb (String.eqb (fst kv) key)) (Header req))
    (RequestBody req).

End http.

(** ** The environment and the monad of the handlers *)

(** What a process finds outside itself: its environment variables
    ([os.Getenv], the empty string for an unset variable) and the outcome of
    handing a request to an [http.Client] with a timeout ([client.Do]: a
    response, or a transport error such as a refused connection or the
    timeout). *)
Record World : Type := mkWorld {
  Getenv : string -> string;
  Do : http.Request -> result http.Response
}.

(** A computation reads the world and logs the requests it sends. *)
Definition IO (A : Type) : Type :=
  World -> list http.Request -> A * list http.Request.

Definition ret {A : Type} (a : A) : IO A := fun _ log => (a, log).

Definition bind {A B : Type} (m : IO A) (k : A -> IO B) : IO B :=
  fun w log => k (fst (m w log)) w (snd (m w log)).

Declare Scope io_scope.
Delimit Scope io_scope with io.
Notation "x <- m ;; k" := (bind m (fun x => k))
  (at level 100, m at next level, right associativity) : io_scope.

Definition os_Getenv (key : string) : IO string :=
  fun w log => (Getenv w key, log).

Definition client_Do (req : http.Request) : IO (result http.Response) :=
  fun w log => (Do w req, (log ++ [req])%list).

(** A run from an empty log: the value, and the requests sent. *)
Definition run {A : Type} (m : IO A) (w : World) : A * list http.Request := m w [].
Definition value {A : Type} (m : IO A) (w : World) : A := fst (run m w).
Definition sent {A : Type} (m : IO A) (w : World) : list http.Request := snd (run m w).

Module gin.

(** The validation that gin's binding runs on a decoded struct, from the
    struct's [binding:] tags. *)
Class Binding (T : Type) : Type := validateStruct : T -> option error.

(** [c.ShouldBindJSON(&obj)] on a request whose body is [body]: decode,
    then validate. *)
Definition ShouldBindJSON {T : Type} {dec : json.Decoder T} {bnd : Binding T}
    (body : string) : result T :=
  match json.Decode body with
  | Err e => Err e
  | Ok obj =>
      match validateStruct obj with
      | Some e => Err e
      | None => Ok obj
      end
  end.

(** What [c.JSON(code, obj)] hands to the client. *)
Record Reply (O : Type) : Type := JSON { Code : Z; Obj : O }.
Arguments JSON {O} Code Obj.
Arguments Code {O} r.
Arguments Obj {O} r.

End gin.

(** ** The pattern of [validateCEP] *)

(** [`^\d{8}$`], the pattern both services hand to [regexp.MatchString]. *)
Definition cepPattern : regexp.Regexp :=
  regexp.Concat regexp.BeginText
    (regexp.Concat (regexp.Repeat regexp.Digit 8) regexp.EndText).

(** Position [i] of [s] holds a byte of the class [\d]. *)
Definition digit_at (s : string) (i : nat) : bool :=
  match String.get i s with
  | Some c => regexp.in_class "0" "9" c
  | None => false
  end.

(** ** service-a/main.go: the edge validator *)

Module ServiceA.

Record CEPRequest : Type := mkCEPRequest {
  CEP : string                        (* `json:"cep" binding:"required"` *)
}.

Record ErrorResponse : Type := mkErrorResponse {
  Message : string                    (* `json:"message"` *)
}.

(** [binding:"required"]: the field must not be the zero value. *)
#[global] Instance CEPRequest_Binding : gin.Binding CEPRequest :=
  fun req =>
    if String.eqb (CEP req) ""
    then Some (LibraryError "validator" "Field validation for 'CEP' failed on the 'required' tag")
    else None.

(** The values the handler passes to [c.JSON]. *)
Inductive Payload : Type :=
| OfErrorResponse (e : ErrorResponse)
| OfInterface (v : any).

Definition validateCEP (cep : string) : bool :=
  if negb (String.length cep =? 8) then false
  else
    (* matched, _ := regexp.MatchString(`^\d{8}$`, cep): the pattern
       compiles, so the error is always nil *)
    regexp.MatchString cepPattern cep.

Section Handlers.
Context {dec_req : json.Decoder CEPRequest}
        {enc_req : json.Encoder CEPRequest}
        {dec_any : json.Decoder any}
        {url_parser : url.Parser}.
Local Open Scope io_scope.

Definition forwardToServiceB (cep : string) : IO (result http.Response) :=
  env <- os_Getenv "SERVICE_B_URL" ;;
  let serviceBURL :=
    if String.eqb env "" then "http://service-b:8081" else env in
  let requestBody := mkCEPRequest cep in
  match json.Marshal requestBody with
  | Err err => ret (Err err)
  | Ok jsonData =>
      match http.NewRequestWithContext "POST" (serviceBURL ++ "/weather")
              (Some jsonData) with
      | Err err => ret (Err err)
      | Ok req =>
          let req := http.Header_Set req "Content-Type" "application/json" in
          client_Do req
      end
  end.

(** [handleCEP] on a request whose body is [body]. *)
Definition handleCEP (body : string) : IO (gin.Reply Payload) :=
  match gin.ShouldBindJSON body with
  | Err _ =>
      ret (gin.JSON http.StatusUnprocessableEntity
             (OfErrorResponse (mkErrorResponse "invalid zipcode")))
  | Ok req =>
      if negb (validateCEP (CEP req)) then
        ret (gin.JSON http.StatusUnprocessableEntity
               (OfErrorResponse (mkErrorResponse "invalid zipcode")))
      else
        r <- forwardToServiceB (CEP req) ;;
        match r with
        | Err _ =>
            ret (gin.JSON http.StatusInternalServerError
                   (OfErrorResponse (mkErrorResponse "internal server error")))
        | Ok resp =>
            match json.Decode (T := any) (http.Body resp) with
            | Err _ =>
                ret (gin.JSON http.StatusInternalServerError
                       (OfErrorResponse (mkErrorResponse "internal server error")))
            | Ok responseBody =>
                ret (gin.JSON (http.StatusCode resp) (OfInterface responseBody))
            end
        end
  end.

End Handlers.

End ServiceA.

(** ** service-b/main.go: the orchestrator *)

Module ServiceB.

Record CEPRequest : Type := mkCEPRequest {
  CEP : string                        (* `json:"cep" binding:"required"` *)
}.

Record ViaCEPResponse : Type := mkViaCEPResponse {
  ViaCEP_CEP : string;                (* CEP `json:"cep"` *)
  Logradouro : string;                (* `json:"logradouro"` *)
  Bairro : string;                    (* `json:"bairro"` *)
  Localidade : string;                (* `json:"localidade"` *)
  UF : string;                        (* `json:"uf"` *)
  Erro : bool                         (* `json:"erro,omitempty"` *)
}.

(** The anonymous struct of the field [Current]. *)
Record WeatherAPICurrent : Type := mkWeatherAPICurrent {
  Current_TempC : float64             (* TempC `json:"temp_c"` *)
}.

Record WeatherAPIResponse : Type := mkWeatherAPIResponse {
  Current : WeatherAPICurrent         (* `json:"current"` *)
}.

Record WeatherResponse : Type := mkWeatherResponse {
  City : string;                      (* `json:"city"` *)
  TempC : float64;                    (* `json:"temp_C"` *)
  TempF : float64;                    (* `json:"temp_F"` *)
  TempK : float64                     (* `json:"temp_K"` *)
}.

Record ErrorResponse : Type := mkErrorResponse {
  Message : string                    (* `json:"message"` *)
}.

#[global] Instance CEPRequest_Binding : gin.Binding CEPRequest :=
  fun req =>
    if String.eqb (CEP req) ""
    then Some (LibraryError "validator" "Field validation for 'CEP' failed on the 'required' tag")
    else None.

(** The values the handler passes to [c.JSON]. *)
Inductive Payload : Type :=
| OfErrorResponse (e : ErrorResponse)
| OfWeatherResponse (r : WeatherResponse).

Definition validateCEP (cep : string) : bool :=
  if negb (String.length cep =? 8) then false
  else regexp.MatchString cepPattern cep.

Definition celsiusToFahrenheit (celsius : float64) : float64 :=
  (celsius * 1.8 + 32)%float.

Definition celsiusToKelvin (celsius : float64) : float64 :=
  (celsius + 273)%float.

Definition viaCEPURL (cep : string) : string :=
  "https://viacep.com.br/ws/" ++ cep ++ "/json/".

Definition weatherURL (apiKey city : string) : string :=
  "http://api.weatherapi.com/v1/current.json?key=" ++ apiKey ++ "&q=" ++ city ++ "&aqi=no".

Section Handlers.
Context {dec_req : json.Decoder CEPRequest}
        {dec_cep : json.Decoder ViaCEPResponse}
        {dec_weather : json.Decoder WeatherAPIResponse}
        {url_parser : url.Parser}.
Local Open Scope io_scope.

Definition fetchCEPInfo (cep : string) : IO (result ViaCEPResponse) :=
  let url := viaCEPURL cep in
  match http.NewRequestWithContext "GET" url None with
  | Err err => ret (Err err)
  | Ok req =>
      r <- client_Do req ;;
      match r with
      | Err err => ret (Err err)
      | Ok resp =>
          match json.Decode (T := ViaCEPResponse) (http.Body resp) with
          | Err err => ret (Err err)
          | Ok cepResp =>
              if Erro cepResp then ret (Err CEPNotFound)
              else ret (Ok cepResp)
          end
      end
  end.

Definition fetchWeatherInfo (city : string) : IO (result WeatherAPIResponse) :=
  apiKey <- os_Getenv "WEATHER_API_KEY" ;;
  if String.eqb apiKey "" || String.eqb apiKey "demo_key" then
    (* Return mock data when no valid API key is provided *)
    let mockTemp := 22.5%float in
    ret (Ok (mkWeatherAPIResponse (mkWeatherAPICurrent mockTemp)))
  else
    let url := weatherURL apiKey city in
    match http.NewRequestWithContext "GET" url None with
    | Err err => ret (Err err)
    | Ok req =>
        r <- client_Do req ;;
        match r with
        | Err err => ret (Err err)
        | Ok resp =>
            if negb (Z.eqb (http.StatusCode resp) http.StatusOK) then
              ret (Err (WeatherStatus (http.StatusCode resp)))
            else
              match json.Decode (T := WeatherAPIResponse) (http.Body resp) with
              | Err err => ret (Err err)
              | Ok weatherResp => ret (Ok weatherResp)
              end
        end
    end.

(** [handleWeather] on a request whose body is [body]. *)
Definition handleWeather (body : string) : IO (gin.Reply Payload) :=
  match gin.ShouldBindJSON body with
  | Err _ =>
      ret (gin.JSON http.StatusUnprocessableEntity
             (OfErrorResponse (mkErrorResponse "invalid zipcode")))
  | Ok req =>
      if negb (validateCEP (CEP req)) then
        ret (gin.JSON http.StatusUnprocessableEntity
               (OfErrorResponse (mkErrorResponse "invalid zipcode")))
      else
        r <- fetchCEPInfo (CEP req) ;;
        match r with
        | Err _ =>
            ret (gin.JSON http.StatusNotFound
                   (OfErrorResponse (mkErrorResponse "can not find zipcode")))
        | Ok cepInfo =>
            r <- fetchWeatherInfo (Localidade cepInfo) ;;
            match r with
            | Err _ =>
                ret (gin.JSON http.StatusInternalServerError
                       (OfErrorResponse
                          (mkErrorResponse "failed to fetch weather information")))
            | Ok weatherInfo =>
                let tempC := Current_TempC (Current weatherInfo) in
                let tempF := celsiusToFahrenheit tempC in
                let tempK := celsiusToKelvin tempC in
                let response := mkWeatherResponse (Localidade cepInfo) tempC tempF tempK in
                ret (gin.JSON http.StatusOK (OfWeatherResponse response))
            end
        end
  end.

End Handlers.

End ServiceB.

(** ** The specification's vocabulary *)

Module Spec.

(** A decimal digit: one of the ten characters from 0 to 9. *)
Definition decimal_digit (c : ascii) : Prop :=
  nat_of_ascii "0" <= nat_of_ascii c <= nat_of_ascii "9".

(** A valid postal code: exactly 8 characters, every one a decimal digit. *)
Definition valid_postal_code (s : string) : Prop :=
  String.length s = 8 /\
  forall i c, String.get i s = Some c -> decimal_digit c.

(** No usable credential: the variable is unset or empty, or holds the
    placeholder. *)
Definition credential_missing (w : World) : Prop :=
  Getenv w "WEATHER_API_KEY" = "" \/ Getenv w "WEATHER_API_KEY" = "demo_key".

(** The world in which every response carries the status [f status]
    instead of [status], and is otherwise the same. *)
Definition with_status (f : Z -> Z) (w : World) : World :=
  mkWorld (Getenv w)
    (fun req =>
       match Do w req with
       | Ok resp => Ok (http.mkResponse (f (http.StatusCode resp)) (http.Body resp))
       | Err e => Err e
       end).

(** The four replies of the orchestrator. *)
Definition invalidZipcode : gin.Reply ServiceB.Payload :=
  gin.JSON 422%Z (ServiceB.OfErrorResponse (ServiceB.mkErrorResponse "invalid zipcode")).
Definition canNotFindZipcode : gin.Reply ServiceB.Payload :=
  gin.JSON 404%Z
    (ServiceB.OfErrorResponse (ServiceB.mkErrorResponse "can not find zipcode")).
Definition failedToFetchWeather : gin.Reply ServiceB.Payload :=
  gin.JSON 500%Z
    (ServiceB.OfErrorResponse
       (ServiceB.mkErrorResponse "failed to fetch weather information")).
Definition weatherResult (city : string) (tempC : float64) : gin.Reply ServiceB.Payload :=
  gin.JSON 200%Z
    (ServiceB.OfWeatherResponse
       (ServiceB.mkWeatherResponse city tempC
          (tempC * 1.8 + 32)%float (tempC + 273)%float)).

Section Orchestrator.
Context {dec_cep : json.Decoder ServiceB.ViaCEPResponse}
        {dec_weather : json.Decoder ServiceB.WeatherAPIResponse}
        {url_parser : url.Parser}.

(** The request of the postal lookup for [cep] is [req]. *)
Definition lookup_request (cep : string) (req : http.Request) : Prop :=
  http.NewRequestWithContext "GET" (ServiceB.viaCEPURL cep) None = Ok req.

(** The postal-lookup call fails: a transport error, a body that does not
    decode, or a collaborator that reports not-found. *)
Inductive LookupFailure (w : World) (cep : string) : Prop :=
| LookupTransportError (req : http.Request) (e : error) :
    lookup_request cep req -> Do w req = Err e -> LookupFailure w cep
| LookupDecodeError (req : http.Request) (resp : http.Response) (e : error) :
    lookup_request cep req -> Do w req = Ok resp ->
    json.Decode (T := ServiceB.ViaCEPResponse) (http.Body resp) = Err e ->
    LookupFailure w cep
| LookupNotFound (req : http.Request) (resp : http.Response)
    (v : ServiceB.ViaCEPResponse) :
    lookup_request cep req -> Do w req = Ok resp ->
    json.Decode (http.Body resp) = Ok v -> ServiceB.Erro v = true ->
    LookupFailure w cep.

(** The postal-lookup call succeeds with the record [info]: a response,
    of any status, whose body decodes and does not report not-found. *)
Inductive LookupSuccess (w : World) (cep : string)
    (info : ServiceB.ViaCEPResponse) : Prop :=
| LookupFound (req : http.Request) (resp : http.Response) :
    lookup_request cep req -> Do w req = Ok resp ->
    json.Decode (http.Body resp) = Ok info -> ServiceB.Erro info = false ->
    LookupSuccess w cep info.

(** The request of the weather call for [city] is [req]: a credential is
    configured, and the URL carries it. *)
Definition weather_request (w : World) (city : string) (req : http.Request) : Prop :=
  ~ credential_missing w /\
  http.NewRequestWithContext "GET"
    (ServiceB.weatherURL (Getenv w "WEATHER_API_KEY") city) None = Ok req.

(** The weather call fails: a response that is not a success, or a body
    that does not decode. *)
Inductive WeatherFailure (w : World) (city : string) : Prop :=
| WeatherNonSuccess (req : http.Request) (resp : http.Response) :
    weather_request w city req -> Do w req = Ok resp ->
    http.StatusCode resp <> http.StatusOK ->
    WeatherFailure w city
| WeatherDecodeError (req : http.Request) (resp : http.Response) (e : error) :
    weather_request w city req -> Do w req = Ok resp ->
    json.Decode (T := ServiceB.WeatherAPIResponse) (http.Body resp) = Err e ->
    WeatherFailure w city.

(** The weather stage succeeds with the Celsius value [tempC]: the
    fallback without a credential, the collaborator's value with one. *)
Inductive WeatherSuccess (w : World) (city : string) (tempC : float64) : Prop :=
| WeatherFallback :
    credential_missing w -> tempC = 22.5%float -> WeatherSuccess w city tempC
| WeatherLive (req : http.Request) (resp : http.Response)
    (v : ServiceB.WeatherAPIResponse) :
    weather_request w city req -> Do w req = Ok resp ->
    http.StatusCode resp = http.StatusOK ->
    json.Decode (http.Body resp) = Ok v ->
    tempC = ServiceB.Current_TempC (ServiceB.Current v) ->
    WeatherSuccess w city tempC.

End Orchestrator.

Section Edge.
Context {enc_req : json.Encoder ServiceA.CEPRequest}
        {url_parser : url.Parser}.

(** Where the orchestrator is: the configured base URL, or the default. *)
Definition serviceBURL (w : World) : string :=
  if String.eqb (Getenv w "SERVICE_B_URL") "" then "http://service-b:8081"
  else Getenv w "SERVICE_B_URL".

(** The forwarding request for [cep] is [req]: a POST of the marshalled
    postal code to the orchestrator's /weather, declared as JSON. *)
Definition forward_request (w : World) (cep : string) (req : http.Request) : Prop :=
  exists (jsonData : string) (rq : http.Request),
    json.Marshal (ServiceA.mkCEPRequest cep) = Ok jsonData /\
    http.NewRequestWithContext "POST" (serviceBURL w ++ "/weather") (Some jsonData)
    = Ok rq /\
    req = http.Header_Set rq "Content-Type" "application/json".

(** The forwarding call succeeds at the transport level, with [resp]. *)
Definition ForwardSuccess (w : World) (cep : string) (resp : http.Response) : Prop :=
  exists req, forward_request w cep req /\ Do w req = Ok resp.

(** The forwarding call fails at the transport level (a connection error,
    the timeout). *)
Definition ForwardTransportFailure (w : World) (cep : string) : Prop :=
  exists req e, forward_request w cep req /\ Do w req = Err e.

End Edge.

End Spec.

(** ** Test doubles: a library that knows a few documents, and small worlds *)

Module Fixture.

(** The double quote, and JSON text built with it. *)
Definition dq : string := String "034"%char EmptyString.
Definition str (s : string) : string := dq ++ s ++ dq.
Definition field (key value : string) : string := str key ++ ":" ++ value.
Definition object (fields : list string) : string :=
  "{" ++ String.concat "," fields ++ "}".

(** A decoder given by the documents it knows; on each of them the answer
    is the one encoding/json gives. *)
Definition table {T : Type} (documents : list (string * result T)) : json.Decoder T :=
  fun body =>
    match find (fun d => String.eqb (fst d) body) documents with
    | Some d => snd d
    | None => Err (LibraryError "json" "document outside the table")
    end.

Definition syntaxError : error :=
  LibraryError "json" "invalid character looking for beginning of value".
Definition typeError : error :=
  LibraryError "json" "cannot unmarshal number into Go struct field CEPRequest.cep of type string".

(** Request bodies: [{"cep":"..."}], [{}], [{"cep":123}], [not json]. *)
Definition cepBody (cep : string) : string := object [field "cep" (str cep)].
Definition emptyObject : string := object [].
Definition numberBody : string := object [field "cep" "123"].
Definition garbage : string := "not json".

Definition knownCEPs : list string :=
  ["01310100"; "20040020"; "99999999"; "123"; "abcd1234"; "123456789"].

Definition decodeRequestA : json.Decoder ServiceA.CEPRequest :=
  table (map (fun c => (cepBody c, Ok (ServiceA.mkCEPRequest c))) knownCEPs
         ++ [ (emptyObject, Ok (ServiceA.mkCEPRequest ""));
              (numberBody, Err typeError);
              (garbage, Err syntaxError) ])%list.

Definition decodeRequestB : json.Decoder ServiceB.CEPRequest :=
  table (map (fun c => (cepBody c, Ok (ServiceB.mkCEPRequest c))) knownCEPs
         ++ [ (emptyObject, Ok (ServiceB.mkCEPRequest ""));
              (numberBody, Err typeError);
              (garbage, Err syntaxError) ])%list.

(** [json.Marshal(CEPRequest{CEP: cep})] for a code without characters that
    JSON escapes. *)
Definition marshalRequestA : json.Encoder ServiceA.CEPRequest :=
  fun req => Ok (cepBody (ServiceA.CEP req)).

(** Bodies of the postal-lookup collaborator. *)
Definition saoPauloBody : string :=
  object [ field "cep" (str "01310-100"); field "logradouro" (str "Avenida Paulista");
           field "bairro" (str "Bela Vista"); field "localidade" (str "São Paulo");
           field "uf" (str "SP") ].
Definition saoPaulo : ServiceB.ViaCEPResponse :=
  ServiceB.mkViaCEPResponse "01310-100" "Avenida Paulista" "Bela Vista" "São Paulo" "SP" false.
Definition notFoundBody : string := object [field "erro" "true"].
Definition notFound : ServiceB.ViaCEPResponse :=
  ServiceB.mkViaCEPResponse "" "" "" "" "" true.
Definition zeroViaCEP : ServiceB.ViaCEPResponse :=
  ServiceB.mkViaCEPResponse "" "" "" "" "" false.

Definition decodeViaCEP : json.Decoder ServiceB.ViaCEPResponse :=
  table [ (saoPauloBody, Ok saoPaulo);
          (notFoundBody, Ok notFound);
          (emptyObject, Ok zeroViaCEP);
          (garbage, Err syntaxError) ].

(** Bodies of the weather collaborator. *)
Definition weatherBody : string :=
  object [field "current" (object [field "temp_c" "25.0"])].
Definition weather25 : ServiceB.WeatherAPIResponse :=
  ServiceB.mkWeatherAPIResponse (ServiceB.mkWeatherAPICurrent 25%float).

Definition decodeWeather : json.Decoder ServiceB.WeatherAPIResponse :=
  table [ (weatherBody, Ok weather25); (garbage, Err syntaxError) ].

(** Bodies of the orchestrator, as the edge validator decodes them. *)
Definition resultBody : string :=
  object [ field "city" (str "São Paulo"); field "temp_C" "22.5";
           field "temp_F" "72.5"; field "temp_K" "295.5" ].
Definition resultValue : any :=
  Map [ ("city", String_ "São Paulo"); ("temp_C", Float64 22.5%float);
        ("temp_F", Float64 72.5%float); ("temp_K", Float64 295.5%float) ].
Definition messageBody (msg : string) : string := object [field "message" (str msg)].
Definition messageValue (msg : string) : any := Map [("message", String_ msg)].

Definition decodeAny : json.Decoder any :=
  table [ (resultBody, Ok resultValue);
          (messageBody "can not find zipcode", Ok (messageValue "can not find zipcode"));
          (garbage, Err syntaxError) ].

(** [url.Parse] rejects a URL that holds an ASCII control character; the
    URLs of the fixtures hold none of the other defects it looks for. *)
Definition isCTL (c : ascii) : bool :=
  (nat_of_ascii c <? 32) || (nat_of_ascii c =? 127).
Definition parseURL : url.Parser :=
  fun u =>
    if existsb isCTL (list_ascii_of_string u)
    then Some (LibraryError "net/url" "invalid control character in URL")
    else None.

Definition connectionRefused : error :=
  LibraryError "net/http" "dial tcp: connect: connection refused".

(** A world given by its environment variables and by what answers at each
    URL; nothing listens anywhere else. *)
Definition world (env : list (string * string))
    (routes : list (string * result http.Response)) : World :=
  mkWorld
    (fun key =>
       match find (fun kv => String.eqb (fst kv) key) env with
       | Some kv => snd kv
       | None => ""
       end)
    (fun req =>
       match find (fun r => String.eqb (fst r) (http.URL req)) routes with
       | Some r => snd r
       | None => Err connectionRefused
       end).

(** The orchestrator's worlds. *)
Definition lookupRoute (cep : string) (status : Z) (body : string) :=
  (ServiceB.viaCEPURL cep, Ok (http.mkResponse status body)).
Definition weatherRoute (key city : string) (status : Z) (body : string) :=
  (ServiceB.weatherURL key city, Ok (http.mkResponse status body)).

(** No credential; the lookup answers for São Paulo and says that 99999999
    does not exist. *)
Definition noCredential : World :=
  world [] [ lookupRoute "01310100" 200 saoPauloBody;
             lookupRoute "99999999" 200 notFoundBody ].
(** The placeholder credential, and a weather collaborator that would
    answer 25 degrees if asked. *)
Definition placeholder : World :=
  world [("WEATHER_API_KEY", "demo_key")]
        [ lookupRoute "01310100" 200 saoPauloBody;
          weatherRoute "demo_key" "São Paulo" 200 weatherBody ].
(** A credential, and a weather collaborator that answers. *)
Definition live : World :=
  world [("WEATHER_API_KEY", "k3y")]
        [ lookupRoute "01310100" 200 saoPauloBody;
          weatherRoute "k3y" "São Paulo" 200 weatherBody ].
(** A credential that the weather collaborator refuses. *)
Definition refused : World :=
  world [("WEATHER_API_KEY", "k3y")]
        [ lookupRoute "01310100" 200 saoPauloBody;
          weatherRoute "k3y" "São Paulo" 401 garbage ].
(** The lookup answers 500 with the body of São Paulo. *)
Definition lookup500 : World :=
  world [] [ lookupRoute "01310100" 500 saoPauloBody ].
(** The lookup answers an object without fields. *)
Definition lookupEmpty : World :=
  world [] [ lookupRoute "01310100" 200 emptyObject ].
(** Nothing answers. *)
Definition offline : World := world [] [].

(** The edge validator's worlds: what answers at the orchestrator's URL. *)
Definition orchestratorURL : string := "http://service-b:8081/weather".
Definition orchestrator (status : Z) (body : string) : World :=
  world [] [ (orchestratorURL, Ok (http.mkResponse status body)) ].

Definition handleWeather : string -> IO (gin.Reply ServiceB.Payload) :=
  ServiceB.handleWeather (dec_req := decodeRequestB) (dec_cep := decodeViaCEP)
    (dec_weather := decodeWeather) (url_parser := parseURL).
Definition fetchCEPInfo : string -> IO (result ServiceB.ViaCEPResponse) :=
  ServiceB.fetchCEPInfo (dec_cep := decodeViaCEP) (url_parser := parseURL).
Definition fetchWeatherInfo : string -> IO (result ServiceB.WeatherAPIResponse) :=
  ServiceB.fetchWeatherInfo (dec_weather := decodeWeather) (url_parser := parseURL).
Definition handleCEP : string -> IO (gin.Reply ServiceA.Payload) :=
  ServiceA.handleCEP (dec_req := decodeRequestA) (enc_req := marshalRequestA)
    (dec_any := decodeAny) (url_parser := parseURL).

End Fixture.


(** ** Test doubles for the two services together *)

Module Deployment.

(** [json.Marshal] of the orchestrator's payloads, as [c.JSON] runs it: the
    error body of a message, and the body of the fallback result for São
    Paulo. *)
Definition marshalPayloadB : json.Encoder ServiceB.Payload :=
  fun obj =>
    match obj with
    | ServiceB.OfErrorResponse e => Ok (Fixture.messageBody (ServiceB.Message e))
    | ServiceB.OfWeatherResponse r =>
        if String.eqb (ServiceB.City r) "São Paulo"
           && PrimFloat.eqb (ServiceB.TempC r) 22.5%float
        then Ok Fixture.resultBody
        else Err (LibraryError "json" "document outside the table")
    end.

(** The line feed, and a base URL that ends with one. *)
Definition lf : string := String "010"%char EmptyString.
Definition misconfigured : World :=
  Fixture.world [("SERVICE_B_URL", "http://service-b:8081" ++ lf)] [].

(** The world without a credential, with a port and a trace collector
    configured, and a weather collaborator listening. *)
Definition otherEnvironment : World :=
  Fixture.world [("PORT", "9090"); ("ZIPKIN_URL", "http://zipkin:9411/api/v2/spans")]
    [ Fixture.lookupRoute "01310100" 200 Fixture.saoPauloBody;
      Fixture.weatherRoute "" "São Paulo" 200 Fixture.weatherBody ].

End Deployment.

(** ** Why a stage fails *)

Module Causes.

Section Orchestrator.
Context {dec_weather : json.Decoder ServiceB.WeatherAPIResponse}
        {url_parser : url.Parser}.

(** The ways in which the weather stage fails: with a credential, a URL
    that does not parse, a transport error, a response that is not a
    success, or a body that does not decode. *)
Definition weather_error_cause (w : World) (city : string) : Prop :=
  ~ Spec.credential_missing w /\
  ((exists e,
      url.Parse (ServiceB.weatherURL (Getenv w "WEATHER_API_KEY") city) = Some e) \/
   (exists req e, Spec.weather_request w city req /\ Do w req = Err e) \/
   Spec.WeatherFailure w city).

End Orchestrator.

Section Edge.
Context {enc_req : json.Encoder ServiceA.CEPRequest}
        {url_parser : url.Parser}.

(** The forwarding request cannot be built: the postal code does not
    marshal, or the orchestrator's URL does not parse. *)
Definition forward_unbuildable (w : World) (cep : string) : Prop :=
  (exists e, json.Marshal (ServiceA.mkCEPRequest cep) = Err e) \/
  (exists e, url.Parse (Spec.serviceBURL w ++ "/weather") = Some e).

End Edge.

End Causes.

(** * Properties *)

(** Unfold the monad. *)
Ltac io :=
  unfold value, sent, run, bind, ret, os_Getenv, client_Do in *;
  cbn [fst snd] in *.

(** ** Strings and the matcher *)

Lemma get_some_lt (s : string) :
  forall i c, String.get i s = Some c -> i < String.length s.
Proof.
  induction s as [|a s IH]; intros [|i] c H; simpl in *; try discriminate.
  - lia.
  - apply IH in H. lia.
Qed.

Lemma get_lt_some (s : string) :
  forall i, i < String.length s -> exists c, String.get i s = Some c.
Proof.
  induction s as [|a s IH]; intros [|i] H; simpl in *; try lia.
  - now exists a.
  - apply IH. lia.
Qed.

Lemma forallb_false_exists {A : Type} (f : A -> bool) (l : list A) :
  forallb f l = false -> exists x, In x l /\ f x = false.
Proof.
  induction l as [|a l IH]; simpl; [discriminate|].
  destruct (f a) eqn:Ha; simpl.
  - intros H. destruct (IH H) as [x [Hx Hfx]]. eauto.
  - intros _. eauto.
Qed.

Lemma in_class_digit (c : ascii) :
  regexp.in_class "0" "9" c = true <-> Spec.decimal_digit c.
Proof.
  unfold regexp.in_class, Spec.decimal_digit.
  rewrite andb_true_iff, !Nat.leb_le. tauto.
Qed.

Lemma ends_Digit (s : string) (i : nat) :
  regexp.ends regexp.Digit s i = if digit_at s i then [S i] else [].
Proof.
  unfold digit_at. simpl. destruct (String.get i s); reflexivity.
Qed.

(** [\d{n}] from [i] ends at [i + n] when the [n] positions from [i] hold
    digits, and nowhere otherwise. *)
Lemma ends_Repeat_Digit (s : string) (i n : nat) :
  regexp.ends (regexp.Repeat regexp.Digit n) s i
  = if forallb (digit_at s) (seq i n) then [i + n] else [].
Proof.
  change (regexp.ends (regexp.Repeat regexp.Digit n) s i)
    with (Nat.iter n (flat_map (regexp.ends regexp.Digit s)) [i]).
  induction n as [|n IH].
  - simpl. now rewrite Nat.add_0_r.
  - rewrite seq_S, forallb_app. cbn [Nat.iter nat_rect].
    fold (Nat.iter n (flat_map (regexp.ends regexp.Digit s)) [i]). rewrite IH.
    destruct (forallb (digit_at s) (seq i n)); [|reflexivity].
    cbn [flat_map forallb andb]. rewrite ends_Digit, andb_true_r, app_nil_r.
    destruct (digit_at s (i + n)); [|reflexivity].
    now rewrite Nat.add_succ_r.
Qed.

(** On a text of 8 bytes, the pattern matches exactly when the 8 bytes are
    digits. *)
Lemma MatchString_cepPattern (s : string) :
  String.length s = 8 ->
  regexp.MatchString cepPattern s = forallb (digit_at s) (seq 0 8).
Proof.
  intros Hlen. unfold regexp.MatchString, cepPattern. rewrite Hlen.
  change (seq 0 9) with [0; 1; 2; 3; 4; 5; 6; 7; 8].
  cbn [existsb regexp.ends Nat.eqb flat_map app regexp.nonempty orb].
  change (Nat.iter 8 (flat_map (regexp.ends regexp.Digit s)) [0])
    with (regexp.ends (regexp.Repeat regexp.Digit 8) s 0).
  rewrite ends_Repeat_Digit, orb_false_r, app_nil_r.
  destruct (forallb (digit_at s) (seq 0 8)); [|reflexivity].
  cbn [flat_map Nat.add app]. rewrite Hlen. reflexivity.
Qed.

Lemma all_digits_iff (s : string) (n : nat) :
  String.length s = n ->
  forallb (digit_at s) (seq 0 n) = true <->
  (forall i c, String.get i s = Some c -> Spec.decimal_digit c).
Proof.
  intros Hlen. rewrite forallb_forall. split.
  - intros H i c Hget. specialize (H i).
    unfold digit_at in H. rewrite Hget in H. apply in_class_digit, H.
    apply in_seq. apply get_some_lt in Hget. lia.
  - intros H i Hi. apply in_seq in Hi.
    destruct (get_lt_some s i) as [c Hc]; [lia|].
    unfold digit_at. rewrite Hc. apply in_class_digit. eauto.
Qed.

(** The postal codes of the repository's system test. *)
Example validateCEP_system_test :
  ServiceA.validateCEP "01310100" = true /\
  ServiceA.validateCEP "20040020" = true /\
  ServiceA.validateCEP "99999999" = true /\
  ServiceA.validateCEP "123" = false /\
  ServiceA.validateCEP "abcd1234" = false /\
  ServiceA.validateCEP "123456789" = false /\
  ServiceA.validateCEP "" = false /\
  ServiceA.validateCEP "01310-10" = false /\
  ServiceA.validateCEP " 1310100" = false.
Proof. repeat split; reflexivity. Qed.

(** The temperatures of the README's expected answer. *)
Example conversions_readme :
  ServiceB.celsiusToFahrenheit 22.5%float = 72.5%float /\
  ServiceB.celsiusToKelvin 22.5%float = 295.5%float.
Proof. split; reflexivity. Qed.

Lemma validateCEP_A_iff (s : string) :
  ServiceA.validateCEP s = true <-> Spec.valid_postal_code s.
Proof.
  unfold ServiceA.validateCEP, Spec.valid_postal_code.
  destruct (Nat.eqb_spec (String.length s) 8) as [Hlen|Hlen]; cbn [negb].
  - rewrite (MatchString_cepPattern s Hlen), (all_digits_iff s 8 Hlen). tauto.
  - split; [discriminate | tauto].
Qed.

(** C1. The postal-code validator, the same function in both services, is a
    total boolean function that answers [true] exactly on the strings of
    length 8 whose characters are all decimal digits, and [false] on every
    string of another length or with a character that is not a digit. *)
Theorem validateCEP_spec (s : string) :
  (ServiceA.validateCEP s = true <-> Spec.valid_postal_code s) /\
  (ServiceA.validateCEP s = false <->
     String.length s <> 8 \/
     exists i c, String.get i s = Some c /\ ~ Spec.decimal_digit c) /\
  ServiceB.validateCEP s = ServiceA.validateCEP s.
Proof.
  split; [apply validateCEP_A_iff | split; [|reflexivity]].
  split.
  - intros Hf.
    destruct (Nat.eq_dec (String.length s) 8) as [Hlen|Hlen]; [right | now left].
    unfold ServiceA.validateCEP in Hf. rewrite Hlen in Hf. cbn [Nat.eqb negb] in Hf.
    rewrite (MatchString_cepPattern s Hlen) in Hf.
    apply forallb_false_exists in Hf. destruct Hf as [i [Hi Hd]].
    apply in_seq in Hi. destruct (get_lt_some s i) as [c Hc]; [lia|].
    exists i, c. split; [exact Hc|].
    unfold digit_at in Hd. rewrite Hc in Hd.
    intros Hdig. apply in_class_digit in Hdig. congruence.
  - intros H. apply not_true_iff_false. intros Ht.
    apply validateCEP_A_iff in Ht. destruct Ht as [Hlen Hall].
    destruct H as [H | [i [c [Hc Hn]]]]; [contradiction | eauto].
Qed.

(** ** The orchestrator *)

Section OrchestratorProperties.
Context {dec_req : json.Decoder ServiceB.CEPRequest}
        {dec_cep : json.Decoder ServiceB.ViaCEPResponse}
        {dec_weather : json.Decoder ServiceB.WeatherAPIResponse}
        {url_parser : url.Parser}.

Import ServiceB.

(** *** The postal lookup *)

(** The log never feeds back into a value. *)
Lemma fetchCEPInfo_any_log (cep : string) (w : World) (log : list http.Request) :
  fst (fetchCEPInfo cep w log) = value (fetchCEPInfo cep) w.
Proof.
  unfold fetchCEPInfo. io.
  destruct (http.NewRequestWithContext "GET" (viaCEPURL cep) None) as [req|e];
    [|reflexivity].
  cbn [fst snd]. destruct (Do w req) as [resp|e]; [|reflexivity].
  destruct (json.Decode (http.Body resp)) as [v|e]; [|reflexivity].
  destruct (Erro v); reflexivity.
Qed.

Lemma fetchCEPInfo_success (w : World) (cep : string) (info : ViaCEPResponse) :
  value (fetchCEPInfo cep) w = Ok info <-> Spec.LookupSuccess w cep info.
Proof.
  unfold fetchCEPInfo. split.
  - io.
    destruct (http.NewRequestWithContext "GET" (viaCEPURL cep) None) as [req|e] eqn:Hreq;
      [|discriminate].
    cbn [fst snd]. destruct (Do w req) as [resp|e] eqn:Hdo; [|discriminate].
    destruct (json.Decode (http.Body resp)) as [v|e] eqn:Hdec; [|discriminate].
    destruct (Erro v) eqn:Herro; [discriminate|].
    cbn [fst]. intros H. injection H as <-.
    exact (Spec.LookupFound w cep v req resp Hreq Hdo Hdec Herro).
  - intros [req resp Hreq Hdo Hdec Herro]. unfold Spec.lookup_request in Hreq.
    io. rewrite Hreq. cbn [fst snd]. rewrite Hdo, Hdec, Herro. reflexivity.
Qed.

Lemma fetchCEPInfo_failure (w : World) (cep : string) :
  Spec.LookupFailure w cep -> exists e, value (fetchCEPInfo cep) w = Err e.
Proof.
  unfold fetchCEPInfo.
  intros [req e Hreq Hdo | req resp e Hreq Hdo Hdec | req resp v Hreq Hdo Hdec Herro];
    unfold Spec.lookup_request in Hreq; io; rewrite Hreq; cbn [fst snd]; rewrite Hdo.
  - cbn [fst]. eauto.
  - rewrite Hdec. cbn [fst]. eauto.
  - rewrite Hdec, Herro. cbn [fst]. eauto.
Qed.

(** With a lookup URL that parses, the three failures are the only ones. *)
Lemma fetchCEPInfo_error_classes (w : World) (cep : string) (e : error) :
  url.Parse (viaCEPURL cep) = None ->
  value (fetchCEPInfo cep) w = Err e -> Spec.LookupFailure w cep.
Proof.
  intros Hurl. unfold fetchCEPInfo. io.
  destruct (http.NewRequestWithContext "GET" (viaCEPURL cep) None) as [req|e'] eqn:Hreq.
  - cbn [fst snd]. destruct (Do w req) as [resp|e'] eqn:Hdo.
    + destruct (json.Decode (http.Body resp)) as [v|e'] eqn:Hdec.
      * destruct (Erro v) eqn:Herro; [|discriminate].
        intros _. exact (Spec.LookupNotFound w cep req resp v Hreq Hdo Hdec Herro).
      * intros _. exact (Spec.LookupDecodeError w cep req resp e' Hreq Hdo Hdec).
    + intros _. exact (Spec.LookupTransportError w cep req e' Hreq Hdo).
  - unfold http.NewRequestWithContext in Hreq. rewrite Hurl in Hreq. discriminate.
Qed.

(** The requests the lookup sends: the one it builds, if it builds one. *)
Lemma fetchCEPInfo_sent (cep : string) (w : World) (log : list http.Request) :
  snd (fetchCEPInfo cep w log)
  = match http.NewRequestWithContext "GET" (viaCEPURL cep) None with
    | Ok req => (log ++ [req])%list
    | Err _ => log
    end.
Proof.
  unfold fetchCEPInfo. io.
  destruct (http.NewRequestWithContext "GET" (viaCEPURL cep) None) as [req|e];
    [|reflexivity].
  cbn [fst snd]. destruct (Do w req) as [resp|e]; [|reflexivity].
  destruct (json.Decode (http.Body resp)) as [v|e]; [|reflexivity].
  destruct (Erro v); reflexivity.
Qed.

(** *** The weather stage *)

Lemma credential_missing_test (w : World) :
  String.eqb (Getenv w "WEATHER_API_KEY") ""
  || String.eqb (Getenv w "WEATHER_API_KEY") "demo_key" = true
  <-> Spec.credential_missing w.
Proof.
  unfold Spec.credential_missing.
  rewrite orb_true_iff, !String.eqb_eq. tauto.
Qed.

Lemma credential_configured_test (w : World) :
  String.eqb (Getenv w "WEATHER_API_KEY") ""
  || String.eqb (Getenv w "WEATHER_API_KEY") "demo_key" = false
  <-> ~ Spec.credential_missing w.
Proof.
  rewrite <- credential_missing_test. symmetry. apply not_true_iff_false.
Qed.

Lemma fetchWeatherInfo_fallback (w : World) (city : string) (log : list http.Request) :
  Spec.credential_missing w ->
  fetchWeatherInfo city w log
  = (Ok (mkWeatherAPIResponse (mkWeatherAPICurrent 22.5%float)), log).
Proof.
  intros H. apply credential_missing_test in H.
  unfold fetchWeatherInfo. io. rewrite H. reflexivity.
Qed.

Lemma fetchWeatherInfo_any_log (city : string) (w : World) (log : list http.Request) :
  fst (fetchWeatherInfo city w log) = value (fetchWeatherInfo city) w.
Proof.
  unfold fetchWeatherInfo. io.
  destruct (String.eqb (Getenv w "WEATHER_API_KEY") ""
            || String.eqb (Getenv w "WEATHER_API_KEY") "demo_key"); [reflexivity|].
  destruct (http.NewRequestWithContext "GET" _ None) as [req|e]; [|reflexivity].
  cbn [fst snd]. destruct (Do w req) as [resp|e]; [|reflexivity].
  destruct (negb (http.StatusCode resp =? http.StatusOK)%Z); [reflexivity|].
  destruct (json.Decode (http.Body resp)) as [v|e]; reflexivity.
Qed.

Lemma fetchWeatherInfo_failure (w : World) (city : string) :
  Spec.WeatherFailure w city -> exists e, value (fetchWeatherInfo city) w = Err e.
Proof.
  unfold fetchWeatherInfo.
  intros [req resp [Hkey Hreq] Hdo Hstatus | req resp e [Hkey Hreq] Hdo Hdec];
    apply credential_configured_test in Hkey; io; rewrite Hkey, Hreq;
    cbn [fst snd]; rewrite Hdo.
  - apply Z.eqb_neq in Hstatus. rewrite Hstatus. cbn [negb fst]. eauto.
  - destruct (negb (http.StatusCode resp =? http.StatusOK)%Z); [cbn [fst]; eauto|].
    rewrite Hdec. cbn [fst]. eauto.
Qed.

Lemma fetchWeatherInfo_success (w : World) (city : string) (tempC : float64) :
  Spec.WeatherSuccess w city tempC ->
  exists v, value (fetchWeatherInfo city) w = Ok v /\ Current_TempC (Current v) = tempC.
Proof.
  intros [Hkey -> | req resp v [Hkey Hreq] Hdo Hstatus Hdec ->].
  - unfold value, run. rewrite (fetchWeatherInfo_fallback w city [] Hkey).
    eexists. split; reflexivity.
  - apply credential_configured_test in Hkey. apply Z.eqb_eq in Hstatus.
    unfold fetchWeatherInfo. io. rewrite Hkey, Hreq. cbn [fst snd].
    rewrite Hdo, Hstatus. cbn [negb]. rewrite Hdec. cbn [fst]. eauto.
Qed.

(** *** The handler, stage by stage *)

Lemma handleWeather_stages (w : World) (body : string) :
  value (handleWeather body) w
  = match gin.ShouldBindJSON body with
    | Err _ => Spec.invalidZipcode
    | Ok req =>
        if validateCEP (CEP req) then
          match value (fetchCEPInfo (CEP req)) w with
          | Err _ => Spec.canNotFindZipcode
          | Ok cepInfo =>
              match value (fetchWeatherInfo (Localidade cepInfo)) w with
              | Err _ => Spec.failedToFetchWeather
              | Ok weatherInfo =>
                  Spec.weatherResult (Localidade cepInfo) (Current_TempC (Current weatherInfo))
              end
          end
        else Spec.invalidZipcode
    end.
Proof.
  unfold handleWeather.
  destruct (gin.ShouldBindJSON body) as [req|e]; [|reflexivity].
  destruct (validateCEP (CEP req)); [|reflexivity].
  cbn [negb]. unfold value at 1, run, bind.
  rewrite fetchCEPInfo_any_log.
  destruct (value (fetchCEPInfo (CEP req)) w) as [cepInfo|e]; [|reflexivity].
  rewrite fetchWeatherInfo_any_log.
  destruct (value (fetchWeatherInfo (Localidade cepInfo)) w) as [weatherInfo|e];
    reflexivity.
Qed.

Lemma bind_valid (body : string) (req : CEPRequest) :
  json.Decode body = Ok req -> validateCEP (CEP req) = true ->
  gin.ShouldBindJSON body = Ok req.
Proof.
  intros Hdec Hvalid. unfold gin.ShouldBindJSON. rewrite Hdec.
  unfold gin.validateStruct, CEPRequest_Binding.
  destruct (String.eqb (CEP req) "") eqn:Hempty; [|reflexivity].
  apply String.eqb_eq in Hempty. rewrite Hempty in Hvalid. discriminate.
Qed.

Lemma handleWeather_invalid (w : World) (body : string) (req : CEPRequest) :
  json.Decode body = Ok req -> validateCEP (CEP req) = false ->
  value (handleWeather body) w = Spec.invalidZipcode.
Proof.
  intros Hdec Hinvalid. rewrite handleWeather_stages.
  unfold gin.ShouldBindJSON. rewrite Hdec.
  destruct (gin.validateStruct req); [reflexivity|].
  rewrite Hinvalid. reflexivity.
Qed.

Lemma handleWeather_valid (w : World) (body : string) (req : CEPRequest) :
  json.Decode body = Ok req -> validateCEP (CEP req) = true ->
  value (handleWeather body) w
  = match value (fetchCEPInfo (CEP req)) w with
    | Err _ => Spec.canNotFindZipcode
    | Ok cepInfo =>
        match value (fetchWeatherInfo (Localidade cepInfo)) w with
        | Err _ => Spec.failedToFetchWeather
        | Ok weatherInfo =>
            Spec.weatherResult (Localidade cepInfo) (Current_TempC (Current weatherInfo))
        end
    end.
Proof.
  intros Hdec Hvalid. rewrite handleWeather_stages.
  rewrite (bind_valid body req Hdec Hvalid), Hvalid. reflexivity.
Qed.

(** Every reply has one of the four shapes. *)
Lemma handleWeather_shapes (w : World) (body : string) :
  value (handleWeather body) w = Spec.invalidZipcode \/
  value (handleWeather body) w = Spec.canNotFindZipcode \/
  value (handleWeather body) w = Spec.failedToFetchWeather \/
  exists city tempC, value (handleWeather body) w = Spec.weatherResult city tempC.
Proof.
  rewrite handleWeather_stages.
  destruct (gin.ShouldBindJSON body) as [req|e]; [|now left].
  destruct (validateCEP (CEP req)); [|now left].
  destruct (value (fetchCEPInfo (CEP req)) w) as [cepInfo|e]; [|now right; left].
  destruct (value (fetchWeatherInfo (Localidade cepInfo)) w) as [weatherInfo|e];
    [|now right; right; left].
  right; right; right. eauto.
Qed.

(** *** The claims about the orchestrator *)

(** C2. In every reply of the orchestrator with status 200 the payload is a
    WeatherResponse whose Fahrenheit and Kelvin fields are computed from
    its Celsius field: temp_F = temp_C * 1.8 + 32 and
    temp_K = temp_C + 273, in float64 arithmetic, with the offset 273. *)
Theorem handleWeather_temperatures (w : World) (body : string) :
  gin.Code (value (handleWeather body) w) = 200%Z ->
  exists r : WeatherResponse,
    gin.Obj (value (handleWeather body) w) = OfWeatherResponse r /\
    TempF r = (TempC r * 1.8 + 32)%float /\
    TempK r = (TempC r + 273)%float.
Proof.
  destruct (handleWeather_shapes w body) as [H | [H | [H | [city [tempC H]]]]];
    rewrite H; cbn [gin.Code gin.Obj Spec.invalidZipcode Spec.canNotFindZipcode
                    Spec.failedToFetchWeather Spec.weatherResult]; try discriminate.
  intros _. eexists. split; [reflexivity|]. split; reflexivity.
Qed.

(** C3. The orchestrator maps each failure class to a fixed status and
    message. For a request that decodes to a postal code: a code that
    fails validation gives 422 "invalid zipcode"; for a valid code, a
    failed postal lookup (transport error, decode error, not-found) gives
    404 "can not find zipcode"; after a successful lookup, a weather call
    that answers a non-success status or a body that does not decode gives
    500 "failed to fetch weather information"; and when all stages succeed
    the reply is 200 with the WeatherResponse of the locality and of the
    three temperatures. *)
Theorem handleWeather_status_mapping (w : World) (body : string) (req : CEPRequest) :
  json.Decode body = Ok req ->
  (validateCEP (CEP req) = false ->
     value (handleWeather body) w
     = gin.JSON 422%Z (OfErrorResponse (mkErrorResponse "invalid zipcode")))
  /\
  (validateCEP (CEP req) = true ->
     (Spec.LookupFailure w (CEP req) ->
        value (handleWeather body) w
        = gin.JSON 404%Z (OfErrorResponse (mkErrorResponse "can not find zipcode")))
     /\
     (forall info : ViaCEPResponse,
        Spec.LookupSuccess w (CEP req) info ->
        (Spec.WeatherFailure w (Localidade info) ->
           value (handleWeather body) w
           = gin.JSON 500%Z
               (OfErrorResponse (mkErrorResponse "failed to fetch weather information")))
        /\
        (forall tempC : float64,
           Spec.WeatherSuccess w (Localidade info) tempC ->
           value (handleWeather body) w
           = gin.JSON 200%Z
               (OfWeatherResponse
                  (mkWeatherResponse (Localidade info) tempC
                     (celsiusToFahrenheit tempC) (celsiusToKelvin tempC)))))).
Proof.
  intros Hdec. split; [apply handleWeather_invalid; exact Hdec|].
  intros Hvalid. rewrite (handleWeather_valid w body req Hdec Hvalid). split.
  - intros Hfail. destruct (fetchCEPInfo_failure w (CEP req) Hfail) as [e ->].
    reflexivity.
  - intros info Hinfo. apply fetchCEPInfo_success in Hinfo. rewrite Hinfo. split.
    + intros Hfail.
      destruct (fetchWeatherInfo_failure w (Localidade info) Hfail) as [e ->].
      reflexivity.
    + intros tempC Hok.
      destruct (fetchWeatherInfo_success w (Localidade info) tempC Hok) as [v [-> <-]].
      reflexivity.
Qed.

(** C4. Without a credential (the variable unset or empty, or holding the
    placeholder "demo_key") the weather stage succeeds with 22.5 degrees
    Celsius and hands no request to the HTTP client: the log of requests
    is unchanged; and a request that reaches the weather stage sends the
    lookup request and nothing else, and is answered 200 with 22.5. *)
Theorem fetchWeatherInfo_without_credential (w : World) :
  Spec.credential_missing w ->
  (forall (city : string) (log : list http.Request),
     fetchWeatherInfo city w log
     = (Ok (mkWeatherAPIResponse (mkWeatherAPICurrent 22.5%float)), log))
  /\
  (forall (body : string) (req : CEPRequest) (info : ViaCEPResponse)
          (lookup : http.Request),
     json.Decode body = Ok req -> validateCEP (CEP req) = true ->
     Spec.lookup_request (CEP req) lookup ->
     Spec.LookupSuccess w (CEP req) info ->
     sent (handleWeather body) w = [lookup] /\
     value (handleWeather body) w
     = gin.JSON 200%Z
         (OfWeatherResponse
            (mkWeatherResponse (Localidade info) 22.5%float 72.5%float 295.5%float))).
Proof.
  intros Hkey. split; [intros; now apply fetchWeatherInfo_fallback|].
  intros body req info lookup Hdec Hvalid Hreq Hinfo. split.
  - unfold sent, run, handleWeather.
    rewrite (bind_valid body req Hdec Hvalid), Hvalid. cbn [negb]. unfold bind.
    rewrite fetchCEPInfo_any_log, fetchCEPInfo_sent.
    apply fetchCEPInfo_success in Hinfo. rewrite Hinfo.
    unfold Spec.lookup_request in Hreq. rewrite Hreq.
    rewrite (fetchWeatherInfo_fallback w _ _ Hkey). reflexivity.
  - rewrite (handleWeather_valid w body req Hdec Hvalid).
    apply fetchCEPInfo_success in Hinfo. rewrite Hinfo.
    unfold value at 1, run. rewrite (fetchWeatherInfo_fallback w _ _ Hkey).
    reflexivity.
Qed.

(** The lookup looks at the world only through the answer to its own
    request. *)
Lemma fetchCEPInfo_same_answer (w1 w2 : World) (cep : string) :
  (forall req, Spec.lookup_request cep req -> Do w1 req = Do w2 req) ->
  value (fetchCEPInfo cep) w1 = value (fetchCEPInfo cep) w2.
Proof.
  intros Hsame. unfold fetchCEPInfo. io.
  destruct (http.NewRequestWithContext "GET" (viaCEPURL cep) None) as [req|e] eqn:Hreq;
    [|reflexivity].
  cbn [fst snd]. rewrite (Hsame req Hreq).
  destruct (Do w2 req) as [resp|e]; [|reflexivity].
  destruct (json.Decode (http.Body resp)) as [v|e]; [|reflexivity].
  destruct (Erro v); reflexivity.
Qed.

Lemma fetchCEPInfo_with_status (f : Z -> Z) (w : World) (cep : string) :
  value (fetchCEPInfo cep) (Spec.with_status f w) = value (fetchCEPInfo cep) w.
Proof.
  unfold fetchCEPInfo. io.
  destruct (http.NewRequestWithContext "GET" (viaCEPURL cep) None) as [req|e];
    [|reflexivity].
  cbn [fst snd Do Spec.with_status].
  destruct (Do w req) as [resp|e]; [|reflexivity].
  cbn [http.Body]. destruct (json.Decode (http.Body resp)) as [v|e]; [|reflexivity].
  destruct (Erro v); reflexivity.
Qed.

(** C7, as the code has it. Whenever the postal lookup is classified as a
    success, the locality record is the record decoded from the body of
    the lookup response, with erro not true; its locality name is the
    decoded localidade, whatever it is, and it is the city of the reply.
    Nothing requires the name to be non-empty. *)
Theorem fetchCEPInfo_locality (w : World) (cep : string) (info : ViaCEPResponse) :
  value (fetchCEPInfo cep) w = Ok info ->
  (exists (req : http.Request) (resp : http.Response),
     Spec.lookup_request cep req /\ Do w req = Ok resp /\
     json.Decode (http.Body resp) = Ok info /\ Erro info = false)
  /\
  (forall (body : string) (r : WeatherResponse),
     json.Decode body = Ok (mkCEPRequest cep) -> validateCEP cep = true ->
     gin.Obj (value (handleWeather body) w) = OfWeatherResponse r ->
     City r = Localidade info).
Proof.
  intros Hinfo. split.
  - apply fetchCEPInfo_success in Hinfo. destruct Hinfo as [req resp H1 H2 H3 H4].
    exists req, resp. auto.
  - intros body r Hdec Hvalid.
    rewrite (handleWeather_valid w body (mkCEPRequest cep) Hdec Hvalid).
    cbn [CEP]. rewrite Hinfo.
    destruct (value (fetchWeatherInfo (Localidade info)) w) as [weatherInfo|e];
      cbn [gin.Obj Spec.failedToFetchWeather Spec.weatherResult]; [|discriminate].
    intros H. injection H as <-. reflexivity.
Qed.

(** C8. Two runs on the same valid postal code, in worlds whose postal
    lookup answers the same and which both lack a credential, give the
    same reply: the same status, the same city, the same temperatures; and
    a WeatherResponse among them carries 22.5 degrees Celsius (72.5
    Fahrenheit, 295.5 Kelvin). *)
Theorem handleWeather_deterministic (w1 w2 : World) (body : string) (req : CEPRequest) :
  json.Decode body = Ok req -> validateCEP (CEP req) = true ->
  (forall lookup, Spec.lookup_request (CEP req) lookup -> Do w1 lookup = Do w2 lookup) ->
  Spec.credential_missing w1 -> Spec.credential_missing w2 ->
  value (handleWeather body) w1 = value (handleWeather body) w2 /\
  (forall r : WeatherResponse,
     gin.Obj (value (handleWeather body) w1) = OfWeatherResponse r ->
     TempC r = 22.5%float /\ TempF r = 72.5%float /\ TempK r = 295.5%float).
Proof.
  intros Hdec Hvalid Hsame Hkey1 Hkey2.
  rewrite !(handleWeather_valid _ body req Hdec Hvalid).
  rewrite (fetchCEPInfo_same_answer w1 w2 (CEP req) Hsame).
  destruct (value (fetchCEPInfo (CEP req)) w2) as [cepInfo|e].
  - unfold value, run.
    rewrite (fetchWeatherInfo_fallback w1 _ _ Hkey1),
            (fetchWeatherInfo_fallback w2 _ _ Hkey2).
    cbn [fst Current Current_TempC]. split; [reflexivity|].
    intros r H. cbn [gin.Obj Spec.weatherResult] in H. injection H as <-.
    repeat split; reflexivity.
  - split; [reflexivity|]. intros r H. discriminate H.
Qed.

(** C10. The postal lookup never looks at the status code of the lookup
    response. A response of any status whose body decodes with erro not
    true is a success; the lookup gives the same result when every status
    code of the world is replaced; the handler then goes on to the weather
    stage; and, the lookup URL of a valid code being one that parses, the
    reply is 404 exactly when the lookup failed by a transport error, a
    decode error, or erro = true. *)
Theorem fetchCEPInfo_ignores_status (w : World) (cep : string) :
  (forall (req : http.Request) (resp : http.Response) (info : ViaCEPResponse),
     Spec.lookup_request cep req -> Do w req = Ok resp ->
     json.Decode (http.Body resp) = Ok info -> Erro info = false ->
     value (fetchCEPInfo cep) w = Ok info)
  /\
  (forall f : Z -> Z,
     value (fetchCEPInfo cep) (Spec.with_status f w) = value (fetchCEPInfo cep) w)
  /\
  (forall body : string,
     json.Decode body = Ok (mkCEPRequest cep) -> validateCEP cep = true ->
     (forall info : ViaCEPResponse,
        value (fetchCEPInfo cep) w = Ok info ->
        value (handleWeather body) w
        = match value (fetchWeatherInfo (Localidade info)) w with
          | Err _ =>
              gin.JSON 500%Z
                (OfErrorResponse (mkErrorResponse "failed to fetch weather information"))
          | Ok weatherInfo =>
              gin.JSON 200%Z
                (OfWeatherResponse
                   (mkWeatherResponse (Localidade info)
                      (Current_TempC (Current weatherInfo))
                      (celsiusToFahrenheit (Current_TempC (Current weatherInfo)))
                      (celsiusToKelvin (Current_TempC (Current weatherInfo)))))
          end)
     /\
     (url.Parse (viaCEPURL cep) = None ->
      (gin.Code (value (handleWeather body) w) = 404%Z <-> Spec.LookupFailure w cep))).
Proof.
  split; [|split].
  - intros req resp info Hreq Hdo Hdec Herro. apply fetchCEPInfo_success.
    exact (Spec.LookupFound w cep info req resp Hreq Hdo Hdec Herro).
  - intros f. apply fetchCEPInfo_with_status.
  - intros body Hdec Hvalid.
    rewrite (handleWeather_valid w body (mkCEPRequest cep) Hdec Hvalid). cbn [CEP].
    split.
    + intros info ->. reflexivity.
    + intros Hurl. split.
      * destruct (value (fetchCEPInfo cep) w) as [info|e] eqn:Hfetch.
        -- destruct (value (fetchWeatherInfo (Localidade info)) w); discriminate.
        -- intros _. exact (fetchCEPInfo_error_classes w cep e Hurl Hfetch).
      * intros Hfail. destruct (fetchCEPInfo_failure w cep Hfail) as [e ->].
        reflexivity.
Qed.

End OrchestratorProperties.

(** ** The edge validator *)

Section EdgeProperties.
Context {dec_req : json.Decoder ServiceA.CEPRequest}
        {enc_req : json.Encoder ServiceA.CEPRequest}
        {dec_any : json.Decoder any}
        {url_parser : url.Parser}.

Import ServiceA.

Lemma forwardToServiceB_any_log (cep : string) (w : World) (log : list http.Request) :
  fst (forwardToServiceB cep w log) = value (forwardToServiceB cep) w.
Proof.
  unfold forwardToServiceB. io.
  destruct (json.Marshal (mkCEPRequest cep)) as [jsonData|e]; [|reflexivity].
  destruct (http.NewRequestWithContext "POST" _ (Some jsonData)) as [req|e];
    reflexivity.
Qed.

Lemma forwardToServiceB_success (w : World) (cep : string) (resp : http.Response) :
  value (forwardToServiceB cep) w = Ok resp <-> Spec.ForwardSuccess w cep resp.
Proof.
  unfold forwardToServiceB, Spec.ForwardSuccess, Spec.forward_request, Spec.serviceBURL.
  io. split.
  - destruct (json.Marshal (mkCEPRequest cep)) as [jsonData|e]; [|discriminate].
    destruct (http.NewRequestWithContext "POST" _ (Some jsonData)) as [rq|e] eqn:Hrq;
      [|discriminate].
    cbn [fst]. intros Hdo. eexists. split; [|exact Hdo].
    exists jsonData, rq. auto.
  - intros [req [[jsonData [rq [Hm [Hrq ->]]]] Hdo]].
    rewrite Hm, Hrq. exact Hdo.
Qed.

Lemma forwardToServiceB_transport_failure (w : World) (cep : string) :
  Spec.ForwardTransportFailure w cep -> exists e, value (forwardToServiceB cep) w = Err e.
Proof.
  unfold forwardToServiceB, Spec.ForwardTransportFailure, Spec.forward_request,
    Spec.serviceBURL.
  intros [req [e [[jsonData [rq [Hm [Hrq ->]]]] Hdo]]].
  io. rewrite Hm, Hrq. cbn [fst]. eauto.
Qed.

Lemma handleCEP_stages (w : World) (body : string) :
  value (handleCEP body) w
  = match gin.ShouldBindJSON body with
    | Err _ => gin.JSON 422%Z (OfErrorResponse (mkErrorResponse "invalid zipcode"))
    | Ok req =>
        if validateCEP (CEP req) then
          match value (forwardToServiceB (CEP req)) w with
          | Err _ =>
              gin.JSON 500%Z (OfErrorResponse (mkErrorResponse "internal server error"))
          | Ok resp =>
              match json.Decode (T := any) (http.Body resp) with
              | Err _ =>
                  gin.JSON 500%Z
                    (OfErrorResponse (mkErrorResponse "internal server error"))
              | Ok responseBody =>
                  gin.JSON (http.StatusCode resp) (OfInterface responseBody)
              end
          end
        else gin.JSON 422%Z (OfErrorResponse (mkErrorResponse "invalid zipcode"))
    end.
Proof.
  unfold handleCEP.
  destruct (gin.ShouldBindJSON body) as [req|e]; [|reflexivity].
  destruct (validateCEP (CEP req)); [|reflexivity].
  cbn [negb]. unfold value at 1, run, bind.
  rewrite forwardToServiceB_any_log.
  destruct (value (forwardToServiceB (CEP req)) w) as [resp|e]; [|reflexivity].
  destruct (json.Decode (http.Body resp)); reflexivity.
Qed.

(** C5, as the code has it. For a request whose postal code passes
    validation, whose forwarding call succeeds at the transport level and
    whose response body decodes as JSON, the edge validator replies with
    exactly the orchestrator's status code and with the decoded value of
    the orchestrator's body, uninterpreted. *)
Theorem handleCEP_relays (w : World) (body : string) (req : CEPRequest)
    (resp : http.Response) (responseBody : any) :
  gin.ShouldBindJSON body = Ok req -> validateCEP (CEP req) = true ->
  Spec.ForwardSuccess w (CEP req) resp ->
  json.Decode (http.Body resp) = Ok responseBody ->
  value (handleCEP body) w = gin.JSON (http.StatusCode resp) (OfInterface responseBody).
Proof.
  intros Hbind Hvalid Hfwd Hdec. apply forwardToServiceB_success in Hfwd.
  rewrite handleCEP_stages, Hbind, Hvalid, Hfwd, Hdec. reflexivity.
Qed.

(** C6. The edge validator maps its own failures to fixed replies: a body
    that does not bind as a request with a postal code (a payload that
    does not decode, by its syntax or by a wrong type, or a missing field,
    which leaves the code empty) gives 422 "invalid zipcode"; a bound
    postal code that fails validation gives the same; and a transport
    failure of the forwarding call gives 500 "internal server error". *)
Theorem handleCEP_failures (w : World) (body : string) :
  (forall e, gin.ShouldBindJSON (T := CEPRequest) body = Err e ->
     value (handleCEP body) w
     = gin.JSON 422%Z (OfErrorResponse (mkErrorResponse "invalid zipcode")))
  /\
  (forall e, json.Decode (T := CEPRequest) body = Err e ->
     gin.ShouldBindJSON (T := CEPRequest) body = Err e)
  /\
  (forall req, json.Decode body = Ok req -> CEP req = "" ->
     exists e, gin.ShouldBindJSON (T := CEPRequest) body = Err e)
  /\
  (forall req, gin.ShouldBindJSON body = Ok req -> validateCEP (CEP req) = false ->
     value (handleCEP body) w
     = gin.JSON 422%Z (OfErrorResponse (mkErrorResponse "invalid zipcode")))
  /\
  (forall req, gin.ShouldBindJSON body = Ok req -> validateCEP (CEP req) = true ->
     Spec.ForwardTransportFailure w (CEP req) ->
     value (handleCEP body) w
     = gin.JSON 500%Z (OfErrorResponse (mkErrorResponse "internal server error"))).
Proof.
  rewrite handleCEP_stages. repeat split.
  - intros e ->. reflexivity.
  - intros e He. unfold gin.ShouldBindJSON. rewrite He. reflexivity.
  - intros req Hdec Hempty. unfold gin.ShouldBindJSON. rewrite Hdec.
    unfold gin.validateStruct, CEPRequest_Binding. rewrite Hempty. cbn. eauto.
  - intros req -> ->. reflexivity.
  - intros req -> -> Hfail.
    destruct (forwardToServiceB_transport_failure w (CEP req) Hfail) as [e ->].
    reflexivity.
Qed.

(** C9. When the forwarding call succeeds at the transport level and the
    body of the response does not decode as JSON, the edge validator
    replies 500 "internal server error", whatever the status code of the
    response was. *)
Theorem handleCEP_undecodable_response (w : World) (body : string) (req : CEPRequest)
    (resp : http.Response) (e : error) :
  gin.ShouldBindJSON body = Ok req -> validateCEP (CEP req) = true ->
  Spec.ForwardSuccess w (CEP req) resp ->
  json.Decode (T := any) (http.Body resp) = Err e ->
  value (handleCEP body) w
  = gin.JSON 500%Z (OfErrorResponse (mkErrorResponse "internal server error")).
Proof.
  intros Hbind Hvalid Hfwd Hdec. apply forwardToServiceB_success in Hfwd.
  rewrite handleCEP_stages, Hbind, Hvalid, Hfwd, Hdec. reflexivity.
Qed.

End EdgeProperties.

(** ** The theorems at work on the test doubles *)

Section Instances.
Import Fixture.

Lemma handleWeather_temperatures_witness :
  gin.Code (value (Fixture.handleWeather (cepBody "01310100")) live) = 200%Z /\
  exists r : ServiceB.WeatherResponse,
    gin.Obj (value (Fixture.handleWeather (cepBody "01310100")) live)
    = ServiceB.OfWeatherResponse r /\
    ServiceB.TempF r = (ServiceB.TempC r * 1.8 + 32)%float /\
    ServiceB.TempK r = (ServiceB.TempC r + 273)%float.
Proof.
  split; [reflexivity|].
  apply (@handleWeather_temperatures decodeRequestB decodeViaCEP decodeWeather parseURL
           live (cepBody "01310100")).
  reflexivity.
Defined.

(** The four outcomes of the orchestrator: a code of three digits, a code
    that the lookup does not know, a credential that the weather
    collaborator refuses, and a run in which every stage succeeds. *)
Lemma handleWeather_status_mapping_witness :
  value (Fixture.handleWeather (cepBody "123")) noCredential
  = gin.JSON 422%Z (ServiceB.OfErrorResponse (ServiceB.mkErrorResponse "invalid zipcode"))
  /\
  value (Fixture.handleWeather (cepBody "99999999")) noCredential
  = gin.JSON 404%Z
      (ServiceB.OfErrorResponse (ServiceB.mkErrorResponse "can not find zipcode"))
  /\
  value (Fixture.handleWeather (cepBody "01310100")) refused
  = gin.JSON 500%Z
      (ServiceB.OfErrorResponse
         (ServiceB.mkErrorResponse "failed to fetch weather information"))
  /\
  value (Fixture.handleWeather (cepBody "01310100")) live
  = gin.JSON 200%Z
      (ServiceB.OfWeatherResponse
         (ServiceB.mkWeatherResponse "São Paulo" 25%float 77%float 298%float)).
Proof.
  pose (mapping := @handleWeather_status_mapping
                     decodeRequestB decodeViaCEP decodeWeather parseURL).
  assert (Hfound : forall w,
            Do w (http.mkRequest "GET" (ServiceB.viaCEPURL "01310100") [] None)
            = Ok (http.mkResponse 200 saoPauloBody) ->
            Spec.LookupSuccess (dec_cep := decodeViaCEP) (url_parser := parseURL)
              w "01310100" saoPaulo).
  { intros w Hdo. eapply Spec.LookupFound; [reflexivity | exact Hdo | reflexivity..]. }
  split; [|split; [|split]].
  - apply (proj1 (mapping noCredential (cepBody "123") (ServiceB.mkCEPRequest "123")
                    eq_refl)).
    reflexivity.
  - apply (proj2 (mapping noCredential (cepBody "99999999")
                    (ServiceB.mkCEPRequest "99999999") eq_refl)); [reflexivity|].
    eapply Spec.LookupNotFound; reflexivity.
  - apply (proj2 (mapping refused (cepBody "01310100")
                    (ServiceB.mkCEPRequest "01310100") eq_refl)) with (info := saoPaulo);
      [reflexivity | apply Hfound; reflexivity |].
    eapply Spec.WeatherNonSuccess;
      [split; [intros [H|H]; discriminate H | reflexivity] | reflexivity | discriminate].
  - apply (proj2 (mapping live (cepBody "01310100")
                    (ServiceB.mkCEPRequest "01310100") eq_refl))
      with (info := saoPaulo) (tempC := 25%float);
      [reflexivity | apply Hfound; reflexivity |].
    eapply Spec.WeatherLive;
      [split; [intros [H|H]; discriminate H | reflexivity] | reflexivity..].
Defined.

(** The placeholder credential: the weather collaborator would answer 25
    degrees, and is not asked. *)
Lemma fetchWeatherInfo_without_credential_witness :
  Spec.credential_missing placeholder /\
  (forall (city : string) (log : list http.Request),
     Fixture.fetchWeatherInfo city placeholder log
     = (Ok (ServiceB.mkWeatherAPIResponse (ServiceB.mkWeatherAPICurrent 22.5%float)), log))
  /\
  sent (Fixture.handleWeather (cepBody "01310100")) placeholder
  = [http.mkRequest "GET" "https://viacep.com.br/ws/01310100/json/" [] None]
  /\
  value (Fixture.handleWeather (cepBody "01310100")) placeholder
  = gin.JSON 200%Z
      (ServiceB.OfWeatherResponse
         (ServiceB.mkWeatherResponse "São Paulo" 22.5%float 72.5%float 295.5%float)).
Proof.
  assert (Hkey : Spec.credential_missing placeholder) by (right; reflexivity).
  pose (fallback := @fetchWeatherInfo_without_credential
                      decodeRequestB decodeViaCEP decodeWeather parseURL
                      placeholder Hkey).
  split; [exact Hkey|]. split; [exact (proj1 fallback)|].
  apply (proj2 fallback (cepBody "01310100") (ServiceB.mkCEPRequest "01310100") saoPaulo);
    [reflexivity | reflexivity | reflexivity |].
  eapply Spec.LookupFound; reflexivity.
Defined.

(** C7, as the specification states it, fails: the lookup answers the
    object without fields, which decodes to a record with erro false and
    an empty localidade; the lookup is a success and the reply is 200 with
    an empty city. *)
Lemma fetchCEPInfo_empty_locality :
  value (Fixture.fetchCEPInfo "01310100") lookupEmpty = Ok zeroViaCEP /\
  ServiceB.Localidade zeroViaCEP = "" /\
  value (Fixture.handleWeather (cepBody "01310100")) lookupEmpty
  = gin.JSON 200%Z
      (ServiceB.OfWeatherResponse
         (ServiceB.mkWeatherResponse "" 22.5%float 72.5%float 295.5%float)).
Proof. repeat split; reflexivity. Qed.

Lemma fetchCEPInfo_locality_witness :
  value (Fixture.fetchCEPInfo "01310100") noCredential = Ok saoPaulo /\
  (exists (req : http.Request) (resp : http.Response),
     Spec.lookup_request (url_parser := parseURL) "01310100" req /\
     Do noCredential req = Ok resp /\
     json.Decode (Decoder := decodeViaCEP) (http.Body resp) = Ok saoPaulo /\
     ServiceB.Erro saoPaulo = false) /\
  ServiceB.City
    (ServiceB.mkWeatherResponse "São Paulo" 22.5%float 72.5%float 295.5%float)
  = ServiceB.Localidade saoPaulo.
Proof.
  pose (locality := @fetchCEPInfo_locality
                      decodeRequestB decodeViaCEP decodeWeather parseURL
                      noCredential "01310100" saoPaulo eq_refl).
  split; [reflexivity|]. split; [exact (proj1 locality)|].
  apply (proj2 locality (cepBody "01310100")); reflexivity.
Defined.

(** Two worlds without a credential, one with the variable unset and one
    with the placeholder and a weather collaborator that is never asked. *)
Lemma handleWeather_deterministic_witness :
  Spec.credential_missing noCredential /\ Spec.credential_missing placeholder /\
  value (Fixture.handleWeather (cepBody "01310100")) noCredential
  = value (Fixture.handleWeather (cepBody "01310100")) placeholder /\
  (forall r : ServiceB.WeatherResponse,
     gin.Obj (value (Fixture.handleWeather (cepBody "01310100")) noCredential)
     = ServiceB.OfWeatherResponse r ->
     ServiceB.TempC r = 22.5%float /\ ServiceB.TempF r = 72.5%float /\
     ServiceB.TempK r = 295.5%float).
Proof.
  assert (Hkey1 : Spec.credential_missing noCredential) by (left; reflexivity).
  assert (Hkey2 : Spec.credential_missing placeholder) by (right; reflexivity).
  split; [exact Hkey1|]. split; [exact Hkey2|].
  apply (@handleWeather_deterministic
           decodeRequestB decodeViaCEP decodeWeather parseURL
           noCredential placeholder (cepBody "01310100")
           (ServiceB.mkCEPRequest "01310100"));
    [reflexivity | reflexivity | | exact Hkey1 | exact Hkey2].
  intros lookup Hlookup. injection Hlookup as <-. reflexivity.
Defined.

(** A lookup that answers 500 with the body of São Paulo is a success. *)
Lemma fetchCEPInfo_ignores_status_witness :
  value (Fixture.fetchCEPInfo "01310100") lookup500 = Ok saoPaulo /\
  value (Fixture.fetchCEPInfo "01310100") (Spec.with_status (fun _ => 200%Z) lookup500)
  = value (Fixture.fetchCEPInfo "01310100") lookup500 /\
  (gin.Code (value (Fixture.handleWeather (cepBody "99999999")) noCredential) = 404%Z <->
   Spec.LookupFailure (dec_cep := decodeViaCEP) (url_parser := parseURL)
     noCredential "99999999").
Proof.
  pose (ignores := @fetchCEPInfo_ignores_status
                     decodeRequestB decodeViaCEP decodeWeather parseURL).
  split; [|split].
  - eapply (proj1 (ignores lookup500 "01310100")); reflexivity.
  - apply (proj1 (proj2 (ignores lookup500 "01310100"))).
  - apply (proj2 (proj2 (ignores noCredential "99999999")) (cepBody "99999999"));
      reflexivity.
Defined.

(** C5, as the specification states it, fails: the validation passes, the
    forwarding call succeeds at the transport level with status 200, and
    the body is not JSON; the caller receives 500 and an error message,
    neither the status nor the body that the orchestrator returned. *)
Lemma handleCEP_relay_counterexample :
  gin.ShouldBindJSON (dec := decodeRequestA) (cepBody "01310100")
  = Ok (ServiceA.mkCEPRequest "01310100") /\
  ServiceA.validateCEP "01310100" = true /\
  value (ServiceA.forwardToServiceB (enc_req := marshalRequestA) (url_parser := parseURL)
           "01310100") (orchestrator 200 garbage)
  = Ok (http.mkResponse 200 garbage) /\
  value (Fixture.handleCEP (cepBody "01310100")) (orchestrator 200 garbage)
  = gin.JSON 500%Z
      (ServiceA.OfErrorResponse (ServiceA.mkErrorResponse "internal server error")) /\
  gin.Code (value (Fixture.handleCEP (cepBody "01310100")) (orchestrator 200 garbage))
  <> http.StatusCode (http.mkResponse 200 garbage).
Proof. repeat split; try reflexivity. discriminate. Qed.

Lemma forward_succeeds (status : Z) (body : string) :
  Spec.ForwardSuccess (enc_req := marshalRequestA) (url_parser := parseURL)
    (orchestrator status body) "01310100" (http.mkResponse status body).
Proof.
  eexists. split.
  - eexists. eexists. split; [reflexivity|]. split; reflexivity.
  - reflexivity.
Defined.

(** The edge validator relays a success and a not-found alike. *)
Lemma handleCEP_relays_witness :
  value (Fixture.handleCEP (cepBody "01310100")) (orchestrator 200 resultBody)
  = gin.JSON 200%Z (ServiceA.OfInterface resultValue) /\
  value (Fixture.handleCEP (cepBody "01310100"))
    (orchestrator 404 (messageBody "can not find zipcode"))
  = gin.JSON 404%Z (ServiceA.OfInterface (messageValue "can not find zipcode")).
Proof.
  pose (relays := @handleCEP_relays decodeRequestA marshalRequestA decodeAny parseURL).
  split.
  - apply (relays (orchestrator 200 resultBody) (cepBody "01310100")
             (ServiceA.mkCEPRequest "01310100") (http.mkResponse 200 resultBody)
             resultValue eq_refl eq_refl (forward_succeeds 200 resultBody) eq_refl).
  - apply (relays (orchestrator 404 (messageBody "can not find zipcode"))
             (cepBody "01310100") (ServiceA.mkCEPRequest "01310100")
             (http.mkResponse 404 (messageBody "can not find zipcode"))
             (messageValue "can not find zipcode") eq_refl eq_refl
             (forward_succeeds 404 (messageBody "can not find zipcode")) eq_refl).
Defined.

(** A payload that is not JSON, a number for a code, a missing field, a
    short code, and an orchestrator that cannot be reached. *)
Lemma handleCEP_failures_witness :
  value (Fixture.handleCEP garbage) offline
  = gin.JSON 422%Z (ServiceA.OfErrorResponse (ServiceA.mkErrorResponse "invalid zipcode"))
  /\
  gin.ShouldBindJSON (dec := decodeRequestA) numberBody = Err typeError
  /\
  (exists e, gin.ShouldBindJSON (dec := decodeRequestA) emptyObject = Err e)
  /\
  value (Fixture.handleCEP (cepBody "123")) offline
  = gin.JSON 422%Z (ServiceA.OfErrorResponse (ServiceA.mkErrorResponse "invalid zipcode"))
  /\
  value (Fixture.handleCEP (cepBody "01310100")) offline
  = gin.JSON 500%Z
      (ServiceA.OfErrorResponse (ServiceA.mkErrorResponse "internal server error")).
Proof.
  pose (failures := @handleCEP_failures decodeRequestA marshalRequestA decodeAny parseURL
                      offline).
  split; [|split; [|split; [|split]]].
  - apply (proj1 (failures garbage) syntaxError). reflexivity.
  - apply (proj1 (proj2 (failures numberBody))). reflexivity.
  - apply (proj1 (proj2 (proj2 (failures emptyObject))) (ServiceA.mkCEPRequest ""));
      reflexivity.
  - apply (proj1 (proj2 (proj2 (proj2 (failures (cepBody "123")))))
             (ServiceA.mkCEPRequest "123")); reflexivity.
  - apply (proj2 (proj2 (proj2 (proj2 (failures (cepBody "01310100")))))
             (ServiceA.mkCEPRequest "01310100")); [reflexivity | reflexivity |].
    eexists. exists connectionRefused. split.
    + eexists. eexists. split; [reflexivity|]. split; reflexivity.
    + reflexivity.
Defined.

(** A response with status 200 whose body is not JSON. *)
Lemma handleCEP_undecodable_response_witness :
  json.Decode (Decoder := decodeAny) garbage = Err syntaxError /\
  value (Fixture.handleCEP (cepBody "01310100")) (orchestrator 200 garbage)
  = gin.JSON 500%Z
      (ServiceA.OfErrorResponse (ServiceA.mkErrorResponse "internal server error")).
Proof.
  split; [reflexivity|].
  apply (@handleCEP_undecodable_response decodeRequestA marshalRequestA decodeAny parseURL
           (orchestrator 200 garbage) (cepBody "01310100")
           (ServiceA.mkCEPRequest "01310100") (http.mkResponse 200 garbage) syntaxError
           eq_refl eq_refl (forward_succeeds 200 garbage) eq_refl).
Defined.

End Instances.

(** * Further properties of the handlers *)

(** ** The pattern alone *)

Lemma ends_cepPattern (s : string) (i : nat) :
  regexp.ends cepPattern s i
  = if (i =? 0) && forallb (digit_at s) (seq 0 8) && (8 =? String.length s)
    then [8] else [].
Proof.
  unfold cepPattern. cbn [regexp.ends].
  destruct i as [|i]; cbn [Nat.eqb andb flat_map]; [|reflexivity].
  change (Nat.iter 8 (flat_map (regexp.ends regexp.Digit s)) [0])
    with (regexp.ends (regexp.Repeat regexp.Digit 8) s 0).
  rewrite ends_Repeat_Digit, app_nil_r.
  destruct (forallb (digit_at s) (seq 0 8)); cbn [flat_map andb Nat.add]; [|reflexivity].
  rewrite app_nil_r. reflexivity.
Qed.

(** X10. The length test of [validateCEP] never changes its answer: on every
    string the function returns what [regexp.MatchString] returns for the
    pattern, which only matches texts of 8 bytes. *)
Theorem validateCEP_is_the_pattern (s : string) :
  ServiceA.validateCEP s = regexp.MatchString cepPattern s /\
  ServiceB.validateCEP s = regexp.MatchString cepPattern s.
Proof.
  assert (H : ServiceA.validateCEP s = regexp.MatchString cepPattern s).
  { unfold ServiceA.validateCEP.
    destruct (Nat.eqb_spec (String.length s) 8) as [Hlen|Hlen]; cbn [negb];
      [reflexivity|].
    symmetry. apply not_true_iff_false. intros Hm.
    unfold regexp.MatchString in Hm. apply existsb_exists in Hm.
    destruct Hm as [i [_ Hi]]. rewrite ends_cepPattern in Hi.
    destruct (Nat.eqb_spec 8 (String.length s)) as [Heq|Hneq].
    - congruence.
    - rewrite andb_false_r in Hi. discriminate Hi. }
  split; exact H.
Qed.

(** ** The orchestrator: which replies, after which requests *)

Lemma NewRequestWithContext_ok {url_parser : url.Parser}
    (method u : string) (body : option string) (req : http.Request) :
  http.NewRequestWithContext method u body = Ok req ->
  req = http.mkRequest method u [] body.
Proof.
  unfold http.NewRequestWithContext.
  destruct (url.Parse u); [discriminate|]. intros H. now injection H.
Qed.

Lemma NewRequestWithContext_error {url_parser : url.Parser}
    (method u : string) (body : option string) (e : error) :
  http.NewRequestWithContext method u body = Err e -> url.Parse u = Some e.
Proof.
  unfold http.NewRequestWithContext.
  destruct (url.Parse u); [|discriminate]. intros H. now injection H as ->.
Qed.

Section OrchestratorRequests.
Context {dec_req : json.Decoder ServiceB.CEPRequest}
        {dec_cep : json.Decoder ServiceB.ViaCEPResponse}
        {dec_weather : json.Decoder ServiceB.WeatherAPIResponse}
        {url_parser : url.Parser}.

Import ServiceB.

Lemma bind_decode (body : string) (req : CEPRequest) :
  gin.ShouldBindJSON body = Ok req -> json.Decode body = Ok req.
Proof.
  unfold gin.ShouldBindJSON.
  destruct (json.Decode body) as [r|e]; [|discriminate].
  destruct (gin.validateStruct r); [discriminate|].
  intros H. now injection H as ->.
Qed.

(** What binds and validates is what decodes to a valid code. *)
Lemma bound_and_valid (body : string) (req : CEPRequest) :
  gin.ShouldBindJSON body = Ok req /\ validateCEP (CEP req) = true <->
  json.Decode body = Ok req /\ validateCEP (CEP req) = true.
Proof.
  split; intros [H Hvalid]; split; auto using bind_decode, bind_valid.
Qed.

Lemma fetchWeatherInfo_sent (city : string) (w : World) (log : list http.Request) :
  snd (fetchWeatherInfo city w log)
  = if String.eqb (Getenv w "WEATHER_API_KEY") ""
       || String.eqb (Getenv w "WEATHER_API_KEY") "demo_key"
    then log
    else match http.NewRequestWithContext "GET"
                 (weatherURL (Getenv w "WEATHER_API_KEY") city) None with
         | Ok req => (log ++ [req])%list
         | Err _ => log
         end.
Proof.
  unfold fetchWeatherInfo. io.
  destruct (String.eqb (Getenv w "WEATHER_API_KEY") ""
            || String.eqb (Getenv w "WEATHER_API_KEY") "demo_key"); [reflexivity|].
  destruct (http.NewRequestWithContext "GET" _ None) as [req|e]; [|reflexivity].
  cbn [fst snd]. destruct (Do w req) as [resp|e]; [|reflexivity].
  destruct (negb (http.StatusCode resp =? http.StatusOK)%Z); [reflexivity|].
  destruct (json.Decode (http.Body resp)) as [v|e]; reflexivity.
Qed.

(** A success of the weather stage is the fallback or a decoded answer. *)
Lemma fetchWeatherInfo_ok_inversion (w : World) (city : string) (v : WeatherAPIResponse) :
  value (fetchWeatherInfo city) w = Ok v ->
  Spec.WeatherSuccess w city (Current_TempC (Current v)).
Proof.
  unfold fetchWeatherInfo. io.
  destruct (String.eqb (Getenv w "WEATHER_API_KEY") ""
            || String.eqb (Getenv w "WEATHER_API_KEY") "demo_key") eqn:Hkey.
  - cbn [fst]. intros H. injection H as <-.
    apply Spec.WeatherFallback; [now apply credential_missing_test | reflexivity].
  - apply credential_configured_test in Hkey.
    destruct (http.NewRequestWithContext "GET" _ None) as [req|e] eqn:Hreq;
      [|discriminate].
    cbn [fst snd]. destruct (Do w req) as [resp|e] eqn:Hdo; [|discriminate].
    destruct (http.StatusCode resp =? http.StatusOK)%Z eqn:Hstatus; cbn [negb];
      [|discriminate].
    destruct (json.Decode (http.Body resp)) as [v'|e] eqn:Hdec; [|discriminate].
    cbn [fst]. intros H. injection H as <-. apply Z.eqb_eq in Hstatus.
    exact (Spec.WeatherLive w city _ req resp v' (conj Hkey Hreq) Hdo Hstatus Hdec eq_refl).
Qed.

Lemma fetchWeatherInfo_error_iff (w : World) (city : string) :
  (exists e, value (fetchWeatherInfo city) w = Err e) <-> Causes.weather_error_cause w city.
Proof.
  unfold Causes.weather_error_cause. split.
  - intros [e0 H]. revert H. unfold fetchWeatherInfo. io.
    destruct (String.eqb (Getenv w "WEATHER_API_KEY") ""
              || String.eqb (Getenv w "WEATHER_API_KEY") "demo_key") eqn:Hkey;
      [discriminate|].
    apply credential_configured_test in Hkey. intros H. split; [exact Hkey|].
    destruct (http.NewRequestWithContext "GET" _ None) as [req|e] eqn:Hreq.
    + right. cbn [fst snd] in H. destruct (Do w req) as [resp|e] eqn:Hdo.
      * right.
        destruct (http.StatusCode resp =? http.StatusOK)%Z eqn:Hstatus; cbn [negb] in H.
        -- destruct (json.Decode (http.Body resp)) as [v|e] eqn:Hdec; [discriminate|].
           exact (Spec.WeatherDecodeError w city req resp e (conj Hkey Hreq) Hdo Hdec).
        -- apply Z.eqb_neq in Hstatus.
           exact (Spec.WeatherNonSuccess w city req resp (conj Hkey Hreq) Hdo Hstatus).
      * left. exists req, e. split; [split|]; assumption.
    + left. exists e. now apply NewRequestWithContext_error in Hreq.
  - intros [Hkey [[e Hurl] | [[req [e [[_ Hreq] Hdo]]] | Hfail]]].
    + apply credential_configured_test in Hkey.
      unfold fetchWeatherInfo, http.NewRequestWithContext. io.
      rewrite Hkey, Hurl. cbn [fst]. eauto.
    + apply credential_configured_test in Hkey.
      unfold fetchWeatherInfo. io. rewrite Hkey, Hreq. cbn [fst snd].
      rewrite Hdo. cbn [fst]. eauto.
    + now apply fetchWeatherInfo_failure.
Qed.

(** The log of the handler, stage by stage. *)
Lemma handleWeather_sent (w : World) (body : string) :
  sent (handleWeather body) w
  = match gin.ShouldBindJSON body with
    | Err _ => []
    | Ok req =>
        if validateCEP (CEP req) then
          match value (fetchCEPInfo (CEP req)) w with
          | Err _ => sent (fetchCEPInfo (CEP req)) w
          | Ok cepInfo =>
              snd (fetchWeatherInfo (Localidade cepInfo) w (sent (fetchCEPInfo (CEP req)) w))
          end
        else []
    end.
Proof.
  unfold handleWeather.
  destruct (gin.ShouldBindJSON body) as [req|e]; [|reflexivity].
  destruct (validateCEP (CEP req)); [|reflexivity].
  cbn [negb]. unfold sent at 1, run, bind.
  rewrite fetchCEPInfo_any_log.
  destruct (value (fetchCEPInfo (CEP req)) w) as [cepInfo|e]; [|reflexivity].
  rewrite fetchWeatherInfo_any_log.
  destruct (value (fetchWeatherInfo (Localidade cepInfo)) w); reflexivity.
Qed.

(** X1. The orchestrator has four replies and no other: 200 with a
    WeatherResponse, and 422, 404 and 500 each with its own message. *)
Theorem handleWeather_reply_table (w : World) (body : string) :
  (exists r : WeatherResponse,
     value (handleWeather body) w = gin.JSON 200%Z (OfWeatherResponse r)) \/
  value (handleWeather body) w
  = gin.JSON 422%Z (OfErrorResponse (mkErrorResponse "invalid zipcode")) \/
  value (handleWeather body) w
  = gin.JSON 404%Z (OfErrorResponse (mkErrorResponse "can not find zipcode")) \/
  value (handleWeather body) w
  = gin.JSON 500%Z
      (OfErrorResponse (mkErrorResponse "failed to fetch weather information")).
Proof.
  destruct (handleWeather_shapes w body) as [H | [H | [H | [city [tempC H]]]]];
    rewrite H.
  - right; left. reflexivity.
  - right; right; left. reflexivity.
  - right; right; right. reflexivity.
  - left. eexists. reflexivity.
Qed.

(** X2. A reply that carries a WeatherResponse has status 200 and comes
    from a run in which every stage succeeded: the body decodes to a valid
    postal code, the lookup succeeded with a record whose localidade is the
    city, and the weather stage succeeded with the Celsius value. *)
Theorem handleWeather_ok_inversion (w : World) (body : string) (r : WeatherResponse) :
  gin.Obj (value (handleWeather body) w) = OfWeatherResponse r ->
  gin.Code (value (handleWeather body) w) = 200%Z /\
  exists (req : CEPRequest) (info : ViaCEPResponse),
    json.Decode body = Ok req /\ validateCEP (CEP req) = true /\
    Spec.LookupSuccess w (CEP req) info /\
    City r = Localidade info /\
    Spec.WeatherSuccess w (Localidade info) (TempC r).
Proof.
  rewrite handleWeather_stages.
  destruct (gin.ShouldBindJSON body) as [req|e] eqn:Hbind; [|discriminate].
  destruct (validateCEP (CEP req)) eqn:Hvalid; [|discriminate].
  destruct (value (fetchCEPInfo (CEP req)) w) as [info|e] eqn:Hinfo; [|discriminate].
  destruct (value (fetchWeatherInfo (Localidade info)) w) as [v|e] eqn:Hv;
    [|discriminate].
  cbn [gin.Obj gin.Code Spec.weatherResult]. intros H. injection H as <-.
  split; [reflexivity|]. exists req, info. cbn [City TempC].
  repeat split; auto using bind_decode.
  - now apply fetchCEPInfo_success.
  - now apply fetchWeatherInfo_ok_inversion.
Qed.

(** X3. The orchestrator sends nothing, or the lookup request of a bound
    and valid postal code alone, or that request followed by one weather
    request; the weather request is sent only after a successful lookup and
    only with a credential, for the locality of the lookup. Every request is
    a GET without headers or body, and none is sent twice. *)
Theorem handleWeather_requests (w : World) (body : string) :
  sent (handleWeather body) w = [] \/
  exists req : CEPRequest,
    gin.ShouldBindJSON body = Ok req /\ validateCEP (CEP req) = true /\
    (sent (handleWeather body) w
     = [http.mkRequest "GET" (viaCEPURL (CEP req)) [] None] \/
     exists info : ViaCEPResponse,
       Spec.LookupSuccess w (CEP req) info /\ ~ Spec.credential_missing w /\
       sent (handleWeather body) w
       = [http.mkRequest "GET" (viaCEPURL (CEP req)) [] None;
          http.mkRequest "GET"
            (weatherURL (Getenv w "WEATHER_API_KEY") (Localidade info)) [] None]).
Proof.
  rewrite handleWeather_sent.
  destruct (gin.ShouldBindJSON body) as [req|e] eqn:Hbind; [|now left].
  destruct (validateCEP (CEP req)) eqn:Hvalid; [|now left].
  assert (Hlookup : sent (fetchCEPInfo (CEP req)) w = [] \/
                    sent (fetchCEPInfo (CEP req)) w
                    = [http.mkRequest "GET" (viaCEPURL (CEP req)) [] None]).
  { unfold sent, run. rewrite fetchCEPInfo_sent.
    destruct (http.NewRequestWithContext "GET" (viaCEPURL (CEP req)) None)
      as [lookup|e] eqn:Hreq; [right | now left].
    apply NewRequestWithContext_ok in Hreq. now subst lookup. }
  destruct (value (fetchCEPInfo (CEP req)) w) as [info|e] eqn:Hinfo.
  - apply fetchCEPInfo_success in Hinfo.
    assert (Hsent : sent (fetchCEPInfo (CEP req)) w
                    = [http.mkRequest "GET" (viaCEPURL (CEP req)) [] None]).
    { destruct Hinfo as [lookup resp Hreq _ _ _]. unfold sent, run.
      rewrite fetchCEPInfo_sent. unfold Spec.lookup_request in Hreq. rewrite Hreq.
      apply NewRequestWithContext_ok in Hreq. now subst lookup. }
    right. exists req. split; [first [reflexivity | assumption]|].
    split; [first [reflexivity | assumption]|].
    rewrite fetchWeatherInfo_sent, Hsent.
    destruct (String.eqb (Getenv w "WEATHER_API_KEY") ""
              || String.eqb (Getenv w "WEATHER_API_KEY") "demo_key") eqn:Hkey;
      [now left|].
    apply credential_configured_test in Hkey.
    destruct (http.NewRequestWithContext "GET" _ None) as [weather|e] eqn:Hreq;
      [|now left].
    right. exists info. split; [exact Hinfo|]. split; [exact Hkey|].
    apply NewRequestWithContext_ok in Hreq. now subst weather.
  - destruct Hlookup as [-> | ->]; [now left|].
    right. exists req. split; [first [reflexivity | assumption]|].
    split; [first [reflexivity | assumption]|]. now left.
Qed.

(** X4. The orchestrator replies 422 exactly when the body does not decode
    or decodes to a postal code that fails validation (the required tag adds
    no further case), and it has then sent no request at all. *)
Theorem handleWeather_unprocessable (w : World) (body : string) :
  (gin.Code (value (handleWeather body) w) = 422%Z <->
   (exists e, json.Decode (T := CEPRequest) body = Err e) \/
   (exists req, json.Decode body = Ok req /\ validateCEP (CEP req) = false)) /\
  (gin.Code (value (handleWeather body) w) = 422%Z ->
   sent (handleWeather body) w = []).
Proof.
  rewrite handleWeather_stages, handleWeather_sent. unfold gin.ShouldBindJSON.
  destruct (json.Decode body) as [req|e] eqn:Hdec.
  - unfold gin.validateStruct, CEPRequest_Binding.
    destruct (String.eqb (CEP req) "") eqn:Hempty.
    + apply String.eqb_eq in Hempty. split; [|reflexivity].
      split; [|reflexivity]. intros _. right. exists req.
      split; [reflexivity|]. rewrite Hempty. reflexivity.
    + destruct (validateCEP (CEP req)) eqn:Hvalid.
      * assert (Hcode : gin.Code
                  match value (fetchCEPInfo (CEP req)) w with
                  | Ok cepInfo =>
                      match value (fetchWeatherInfo (Localidade cepInfo)) w with
                      | Ok weatherInfo =>
                          Spec.weatherResult (Localidade cepInfo)
                            (Current_TempC (Current weatherInfo))
                      | Err _ => Spec.failedToFetchWeather
                      end
                  | Err _ => Spec.canNotFindZipcode
                  end <> 422%Z).
        { destruct (value (fetchCEPInfo (CEP req)) w) as [info|e]; [|discriminate].
          destruct (value (fetchWeatherInfo (Localidade info)) w); discriminate. }
        split; [|intros H; contradiction].
        split; [intros H; contradiction|].
        intros [[e H] | [req' [H Hinvalid]]]; [discriminate|].
        injection H as <-. congruence.
      * split; [|reflexivity]. split; [|reflexivity]. intros _. right. eauto.
  - split; [|reflexivity]. split; [|reflexivity]. intros _. left. eauto.
Qed.

(** X5. The orchestrator replies 500 exactly when the body decodes to a
    valid postal code, the lookup succeeded, a credential is configured, and
    the weather call failed: its URL does not parse, the transport failed,
    the response is not a success, or its body does not decode. Without a
    credential the reply is never 500. *)
Theorem handleWeather_internal_error (w : World) (body : string) :
  (gin.Code (value (handleWeather body) w) = 500%Z <->
   exists (req : CEPRequest) (info : ViaCEPResponse),
     json.Decode body = Ok req /\ validateCEP (CEP req) = true /\
     Spec.LookupSuccess w (CEP req) info /\
     Causes.weather_error_cause w (Localidade info)) /\
  (Spec.credential_missing w -> gin.Code (value (handleWeather body) w) <> 500%Z).
Proof.
  assert (Hiff : gin.Code (value (handleWeather body) w) = 500%Z <->
                 exists (req : CEPRequest) (info : ViaCEPResponse),
                   json.Decode body = Ok req /\ validateCEP (CEP req) = true /\
                   Spec.LookupSuccess w (CEP req) info /\
                   Causes.weather_error_cause w (Localidade info)).
  { split.
    - rewrite handleWeather_stages.
      destruct (gin.ShouldBindJSON body) as [req|e] eqn:Hbind; [|discriminate].
      destruct (validateCEP (CEP req)) eqn:Hvalid; [|discriminate].
      destruct (value (fetchCEPInfo (CEP req)) w) as [info|e] eqn:Hinfo; [|discriminate].
      destruct (value (fetchWeatherInfo (Localidade info)) w) as [v|e] eqn:Hv;
        [discriminate|].
      intros _. exists req, info.
      split; [now apply bind_decode|]. split; [exact Hvalid|].
      split; [now apply fetchCEPInfo_success|].
      apply fetchWeatherInfo_error_iff. eauto.
    - intros [req [info [Hdec [Hvalid [Hinfo Hcause]]]]].
      rewrite (handleWeather_valid w body req Hdec Hvalid).
      apply fetchCEPInfo_success in Hinfo. rewrite Hinfo.
      apply fetchWeatherInfo_error_iff in Hcause. destruct Hcause as [e ->].
      reflexivity. }
  split; [exact Hiff|].
  intros Hkey H500. apply Hiff in H500.
  destruct H500 as [req [info [_ [_ [_ [Hconfigured _]]]]]]. contradiction.
Qed.

Lemma fetchCEPInfo_run_same (w1 w2 : World) (cep : string) (log : list http.Request) :
  (forall req, Spec.lookup_request cep req -> Do w1 req = Do w2 req) ->
  fetchCEPInfo cep w1 log = fetchCEPInfo cep w2 log.
Proof.
  intros Hsame. unfold fetchCEPInfo. io.
  destruct (http.NewRequestWithContext "GET" (viaCEPURL cep) None) as [req|e] eqn:Hreq;
    [|reflexivity].
  cbn [fst snd]. rewrite (Hsame req Hreq).
  destruct (Do w2 req) as [resp|e]; [|reflexivity].
  destruct (json.Decode (http.Body resp)) as [v|e]; [|reflexivity].
  destruct (Erro v); reflexivity.
Qed.

Lemma fetchWeatherInfo_run_same (w1 w2 : World) (city : string)
    (log : list http.Request) :
  Getenv w1 "WEATHER_API_KEY" = Getenv w2 "WEATHER_API_KEY" ->
  (forall req,
     http.NewRequestWithContext "GET"
       (weatherURL (Getenv w1 "WEATHER_API_KEY") city) None = Ok req ->
     ~ Spec.credential_missing w1 ->
     Do w1 req = Do w2 req) ->
  fetchWeatherInfo city w1 log = fetchWeatherInfo city w2 log.
Proof.
  intros Hkey Hsame. unfold fetchWeatherInfo. io. rewrite <- Hkey.
  destruct (String.eqb (Getenv w1 "WEATHER_API_KEY") ""
            || String.eqb (Getenv w1 "WEATHER_API_KEY") "demo_key") eqn:Htest;
    [reflexivity|].
  apply credential_configured_test in Htest.
  destruct (http.NewRequestWithContext "GET" _ None) as [req|e] eqn:Hreq;
    [|reflexivity].
  cbn [fst snd]. rewrite (Hsame req eq_refl Htest).
  destruct (Do w2 req) as [resp|e]; [|reflexivity].
  destruct (negb (http.StatusCode resp =? http.StatusOK)%Z); [reflexivity|].
  destruct (json.Decode (http.Body resp)) as [v|e]; reflexivity.
Qed.

(** X11. The orchestrator reads nothing of the world but the credential
    and the answers to the requests it sends: in two worlds with the same
    WEATHER_API_KEY that answer those requests alike, whatever else differs
    (other variables, other hosts), the reply and the requests sent are the
    same. *)
Theorem handleWeather_frame (w1 w2 : World) (body : string) :
  Getenv w1 "WEATHER_API_KEY" = Getenv w2 "WEATHER_API_KEY" ->
  (forall req, In req (sent (handleWeather body) w1) -> Do w1 req = Do w2 req) ->
  run (handleWeather body) w1 = run (handleWeather body) w2.
Proof.
  intros Hkey Hsame. rewrite handleWeather_sent in Hsame.
  unfold run, handleWeather.
  destruct (gin.ShouldBindJSON body) as [req|e]; [|reflexivity].
  destruct (validateCEP (CEP req)); [|reflexivity].
  cbn [negb]. unfold bind.
  assert (Hlookup : forall lookup, Spec.lookup_request (CEP req) lookup ->
                                   Do w1 lookup = Do w2 lookup).
  { intros lookup Hreq. apply Hsame.
    assert (Hin : In lookup (sent (fetchCEPInfo (CEP req)) w1)).
    { unfold sent, run. rewrite fetchCEPInfo_sent.
      unfold Spec.lookup_request in Hreq. rewrite Hreq. now left. }
    destruct (value (fetchCEPInfo (CEP req)) w1) as [info|e]; [|exact Hin].
    rewrite fetchWeatherInfo_sent.
    destruct (String.eqb (Getenv w1 "WEATHER_API_KEY") ""
              || String.eqb (Getenv w1 "WEATHER_API_KEY") "demo_key"); [exact Hin|].
    destruct (http.NewRequestWithContext "GET" _ None); [|exact Hin].
    apply in_or_app. now left. }
  rewrite <- (fetchCEPInfo_run_same w1 w2 (CEP req) [] Hlookup).
  fold (run (fetchCEPInfo (CEP req)) w1).
  fold (value (fetchCEPInfo (CEP req)) w1). fold (sent (fetchCEPInfo (CEP req)) w1).
  destruct (value (fetchCEPInfo (CEP req)) w1) as [info|e]; [|reflexivity].
  assert (Hweather : forall weather,
            http.NewRequestWithContext "GET"
              (weatherURL (Getenv w1 "WEATHER_API_KEY") (Localidade info)) None
            = Ok weather ->
            ~ Spec.credential_missing w1 -> Do w1 weather = Do w2 weather).
  { intros weather Hreq Hconfigured. apply Hsame.
    rewrite fetchWeatherInfo_sent.
    apply credential_configured_test in Hconfigured. rewrite Hconfigured, Hreq.
    apply in_or_app. right. now left. }
  rewrite <- (fetchWeatherInfo_run_same w1 w2 (Localidade info) _ Hkey Hweather).
  destruct (fst (fetchWeatherInfo (Localidade info) w1 (sent (fetchCEPInfo (CEP req)) w1)));
    reflexivity.
Qed.

End OrchestratorRequests.

(** ** The edge validator: which replies, after which requests *)

Section EdgeRequests.
Context {dec_req : json.Decoder ServiceA.CEPRequest}
        {enc_req : json.Encoder ServiceA.CEPRequest}
        {dec_any : json.Decoder any}
        {url_parser : url.Parser}.

Import ServiceA.

Lemma edge_bind_decode (body : string) (req : CEPRequest) :
  gin.ShouldBindJSON body = Ok req -> json.Decode body = Ok req.
Proof.
  unfold gin.ShouldBindJSON.
  destruct (json.Decode body) as [r|e]; [|discriminate].
  destruct (gin.validateStruct r); [discriminate|].
  intros H. now injection H as ->.
Qed.

(** A body that does not bind does not decode, or decodes to a code that
    also fails validation. *)
Lemma edge_bind_error (body : string) (e : error) :
  gin.ShouldBindJSON (T := CEPRequest) body = Err e ->
  (exists e', json.Decode (T := CEPRequest) body = Err e') \/
  (exists req, json.Decode body = Ok req /\ validateCEP (CEP req) = false).
Proof.
  unfold gin.ShouldBindJSON.
  destruct (json.Decode body) as [req|e'] eqn:Hdec; [|eauto].
  unfold gin.validateStruct, CEPRequest_Binding.
  destruct (String.eqb (CEP req) "") eqn:Hempty; [|discriminate].
  apply String.eqb_eq in Hempty. intros _. right. exists req.
  split; [reflexivity|]. rewrite Hempty. reflexivity.
Qed.

Lemma forwardToServiceB_sent (cep : string) (w : World) (log : list http.Request) :
  snd (forwardToServiceB cep w log)
  = match json.Marshal (mkCEPRequest cep) with
    | Ok jsonData =>
        match http.NewRequestWithContext "POST" (Spec.serviceBURL w ++ "/weather")
                (Some jsonData) with
        | Ok req =>
            (log ++ [http.Header_Set req "Content-Type" "application/json"])%list
        | Err _ => log
        end
    | Err _ => log
    end.
Proof.
  unfold forwardToServiceB, Spec.serviceBURL. io.
  destruct (json.Marshal (mkCEPRequest cep)) as [jsonData|e]; [|reflexivity].
  destruct (http.NewRequestWithContext "POST" _ (Some jsonData)); reflexivity.
Qed.

Lemma forwardToServiceB_error (w : World) (cep : string) (e : error) :
  value (forwardToServiceB cep) w = Err e ->
  Causes.forward_unbuildable w cep \/ Spec.ForwardTransportFailure w cep.
Proof.
  unfold forwardToServiceB, Causes.forward_unbuildable, Spec.ForwardTransportFailure,
    Spec.forward_request, Spec.serviceBURL. io.
  destruct (json.Marshal (mkCEPRequest cep)) as [jsonData|e'] eqn:Hm; [|eauto].
  destruct (http.NewRequestWithContext "POST" _ (Some jsonData)) as [rq|e'] eqn:Hrq.
  - cbn [fst]. intros Hdo. right. eexists. exists e. split; [|exact Hdo].
    exists jsonData, rq. auto.
  - intros _. left. right. apply NewRequestWithContext_error in Hrq. eauto.
Qed.

Lemma forwardToServiceB_unbuildable (w : World) (cep : string) :
  Causes.forward_unbuildable w cep ->
  (exists e, value (forwardToServiceB cep) w = Err e) /\
  sent (forwardToServiceB cep) w = [].
Proof.
  intros Hcause. unfold sent, run. rewrite forwardToServiceB_sent.
  unfold Causes.forward_unbuildable in Hcause.
  unfold forwardToServiceB, http.NewRequestWithContext, Spec.serviceBURL in *. io.
  destruct Hcause as [[e Hm] | [e Hurl]].
  - rewrite Hm. cbn [fst]. split; [eauto | reflexivity].
  - destruct (json.Marshal (mkCEPRequest cep)) as [jsonData|e'].
    + rewrite Hurl. cbn [fst]. split; [eauto | reflexivity].
    + cbn [fst]. split; [eauto | reflexivity].
Qed.

Lemma handleCEP_sent (w : World) (body : string) :
  sent (handleCEP body) w
  = match gin.ShouldBindJSON body with
    | Err _ => []
    | Ok req =>
        if validateCEP (CEP req) then sent (forwardToServiceB (CEP req)) w else []
    end.
Proof.
  unfold handleCEP.
  destruct (gin.ShouldBindJSON body) as [req|e]; [|reflexivity].
  destruct (validateCEP (CEP req)); [|reflexivity].
  cbn [negb]. unfold sent at 1, run, bind.
  rewrite forwardToServiceB_any_log.
  destruct (value (forwardToServiceB (CEP req)) w) as [resp|e]; [|reflexivity].
  destruct (json.Decode (http.Body resp)); reflexivity.
Qed.

(** X6. The edge validator sends nothing, or exactly one request: a POST
    to the orchestrator's /weather with the JSON content type, whose body is
    the marshalled postal code alone; and the postal code of a request that
    is sent has passed the validation. *)
Theorem handleCEP_requests (w : World) (body : string) :
  sent (handleCEP body) w = [] \/
  exists (req : CEPRequest) (jsonData : string),
    gin.ShouldBindJSON body = Ok req /\ validateCEP (CEP req) = true /\
    json.Marshal (mkCEPRequest (CEP req)) = Ok jsonData /\
    sent (handleCEP body) w
    = [http.mkRequest "POST" (Spec.serviceBURL w ++ "/weather")
         [("Content-Type", "application/json")] (Some jsonData)].
Proof.
  rewrite handleCEP_sent.
  destruct (gin.ShouldBindJSON body) as [req|e] eqn:Hbind; [|now left].
  destruct (validateCEP (CEP req)) eqn:Hvalid; [|now left].
  unfold sent, run. rewrite forwardToServiceB_sent.
  destruct (json.Marshal (mkCEPRequest (CEP req))) as [jsonData|e] eqn:Hm; [|now left].
  destruct (http.NewRequestWithContext "POST" _ (Some jsonData)) as [rq|e] eqn:Hrq;
    [|now left].
  right. exists req, jsonData. split; [reflexivity|]. split; [exact Hvalid|].
  split; [exact Hm|].
  apply NewRequestWithContext_ok in Hrq. subst rq. reflexivity.
Qed.

(** X7. Every reply of the edge validator is one of three: 422 "invalid
    zipcode", when the body does not decode or decodes to a postal code that
    fails validation; 500 "internal server error", for a valid code whose
    forwarding request cannot be built or fails at the transport level, or
    whose response body does not decode; or the status of the response with
    the decoded value of its body. *)
Theorem handleCEP_reply_table (w : World) (body : string) :
  (value (handleCEP body) w
   = gin.JSON 422%Z (OfErrorResponse (mkErrorResponse "invalid zipcode")) /\
   ((exists e, json.Decode (T := CEPRequest) body = Err e) \/
    (exists req, json.Decode body = Ok req /\ validateCEP (CEP req) = false)))
  \/
  (value (handleCEP body) w
   = gin.JSON 500%Z (OfErrorResponse (mkErrorResponse "internal server error")) /\
   exists req : CEPRequest,
     json.Decode body = Ok req /\ validateCEP (CEP req) = true /\
     (Causes.forward_unbuildable w (CEP req) \/
      Spec.ForwardTransportFailure w (CEP req) \/
      exists resp e,
        Spec.ForwardSuccess w (CEP req) resp /\
        json.Decode (T := any) (http.Body resp) = Err e))
  \/
  (exists (req : CEPRequest) (resp : http.Response) (responseBody : any),
     json.Decode body = Ok req /\ validateCEP (CEP req) = true /\
     Spec.ForwardSuccess w (CEP req) resp /\
     json.Decode (http.Body resp) = Ok responseBody /\
     value (handleCEP body) w
     = gin.JSON (http.StatusCode resp) (OfInterface responseBody)).
Proof.
  rewrite handleCEP_stages.
  destruct (gin.ShouldBindJSON body) as [req|e] eqn:Hbind.
  - apply edge_bind_decode in Hbind.
    destruct (validateCEP (CEP req)) eqn:Hvalid.
    + destruct (value (forwardToServiceB (CEP req)) w) as [resp|e] eqn:Hfwd.
      * apply forwardToServiceB_success in Hfwd.
        destruct (json.Decode (http.Body resp)) as [v|e] eqn:Hdec.
        -- right; right. exists req, resp, v. auto.
        -- right; left. split; [reflexivity|]. exists req.
           split; [exact Hbind|]. split; [exact Hvalid|]. right; right. eauto.
      * right; left. split; [reflexivity|]. exists req.
        split; [exact Hbind|]. split; [exact Hvalid|].
        destruct (forwardToServiceB_error w (CEP req) e Hfwd); auto.
    + left. split; [reflexivity|]. right. eauto.
  - left. split; [reflexivity|]. exact (edge_bind_error body e Hbind).
Qed.

(** X8. When the forwarding request cannot be built (the postal code does
    not marshal, or the configured orchestrator URL does not parse), a
    request with a valid postal code is answered 500 "internal server
    error" and nothing is sent. *)
Theorem handleCEP_unbuildable_forward (w : World) (body : string) (req : CEPRequest) :
  gin.ShouldBindJSON body = Ok req -> validateCEP (CEP req) = true ->
  Causes.forward_unbuildable w (CEP req) ->
  value (handleCEP body) w
  = gin.JSON 500%Z (OfErrorResponse (mkErrorResponse "internal server error")) /\
  sent (handleCEP body) w = [].
Proof.
  intros Hbind Hvalid Hcause.
  destruct (forwardToServiceB_unbuildable w (CEP req) Hcause) as [[e Hfwd] Hsent].
  rewrite handleCEP_stages, handleCEP_sent, Hbind, Hvalid, Hfwd, Hsent.
  split; reflexivity.
Qed.

End EdgeRequests.

(** ** The edge validator in front of the orchestrator *)

Section EndToEnd.
Context {dec_req_A : json.Decoder ServiceA.CEPRequest}
        {enc_req_A : json.Encoder ServiceA.CEPRequest}
        {dec_any : json.Decoder any}
        {dec_req_B : json.Decoder ServiceB.CEPRequest}
        {dec_cep : json.Decoder ServiceB.ViaCEPResponse}
        {dec_weather : json.Decoder ServiceB.WeatherAPIResponse}
        {enc_payload_B : json.Encoder ServiceB.Payload}
        {url_parser : url.Parser}.

(** X9. Let the edge validator run in a world where the forwarding request
    is answered by the orchestrator's reply to the forwarded body (its
    status, and the JSON text of its payload), and let the forwarded body
    decode back to the postal code. Then the orchestrator's own validation
    never rejects the request: its reply is 200, 404 or 500, never 422, and
    the caller receives that status with the decoded payload. *)
Theorem edge_over_orchestrator (wA wB : World) (body : string)
    (req : ServiceA.CEPRequest) (fwd : http.Request) (jsonData text : string)
    (responseBody : any) :
  gin.ShouldBindJSON body = Ok req ->
  ServiceA.validateCEP (ServiceA.CEP req) = true ->
  Spec.forward_request wA (ServiceA.CEP req) fwd ->
  http.RequestBody fwd = Some jsonData ->
  json.Decode jsonData = Ok (ServiceB.mkCEPRequest (ServiceA.CEP req)) ->
  json.Marshal (gin.Obj (value (ServiceB.handleWeather jsonData) wB)) = Ok text ->
  Do wA fwd
  = Ok (http.mkResponse (gin.Code (value (ServiceB.handleWeather jsonData) wB)) text) ->
  json.Decode text = Ok responseBody ->
  value (ServiceA.handleCEP body) wA
  = gin.JSON (gin.Code (value (ServiceB.handleWeather jsonData) wB))
      (ServiceA.OfInterface responseBody) /\
  gin.Code (value (ServiceB.handleWeather jsonData) wB) <> 422%Z /\
  (gin.Code (value (ServiceB.handleWeather jsonData) wB) = 200%Z \/
   gin.Code (value (ServiceB.handleWeather jsonData) wB) = 404%Z \/
   gin.Code (value (ServiceB.handleWeather jsonData) wB) = 500%Z).
Proof.
  intros Hbind Hvalid Hfwd _ Hback _ Hdo Hdec.
  assert (Hresp : Spec.ForwardSuccess wA (ServiceA.CEP req)
                    (http.mkResponse
                       (gin.Code (value (ServiceB.handleWeather jsonData) wB)) text))
    by (exists fwd; auto).
  apply forwardToServiceB_success in Hresp. split.
  - rewrite handleCEP_stages, Hbind, Hvalid, Hresp. cbn [http.Body http.StatusCode].
    rewrite Hdec. reflexivity.
  - rewrite (handleWeather_valid wB jsonData _ Hback Hvalid). cbn [ServiceB.CEP].
    destruct (value (ServiceB.fetchCEPInfo (ServiceA.CEP req)) wB) as [info|e].
    + destruct (value (ServiceB.fetchWeatherInfo (ServiceB.Localidade info)) wB);
        cbn [gin.Code Spec.failedToFetchWeather Spec.weatherResult];
        (split; [discriminate | auto]).
    + cbn [gin.Code Spec.canNotFindZipcode]. split; [discriminate | auto].
Qed.

End EndToEnd.

(** ** The further properties at work on the test doubles *)

Section FurtherInstances.
Import Fixture.

(** The fallback run for São Paulo, read backwards. *)
Lemma handleWeather_ok_inversion_witness :
  gin.Obj (value (Fixture.handleWeather (cepBody "01310100")) noCredential)
  = ServiceB.OfWeatherResponse
      (ServiceB.mkWeatherResponse "São Paulo" 22.5%float 72.5%float 295.5%float) /\
  exists (req : ServiceB.CEPRequest) (info : ServiceB.ViaCEPResponse),
    json.Decode (Decoder := decodeRequestB) (cepBody "01310100") = Ok req /\
    ServiceB.validateCEP (ServiceB.CEP req) = true /\
    Spec.LookupSuccess (dec_cep := decodeViaCEP) (url_parser := parseURL)
      noCredential (ServiceB.CEP req) info /\
    "São Paulo" = ServiceB.Localidade info /\
    Spec.WeatherSuccess (dec_weather := decodeWeather) (url_parser := parseURL)
      noCredential (ServiceB.Localidade info) 22.5%float.
Proof.
  split; [reflexivity|].
  apply (@handleWeather_ok_inversion decodeRequestB decodeViaCEP decodeWeather parseURL
           noCredential (cepBody "01310100")
           (ServiceB.mkWeatherResponse "São Paulo" 22.5%float 72.5%float 295.5%float)
           eq_refl).
Defined.

(** A base URL with a line feed: the request is refused before it is sent. *)
Lemma handleCEP_unbuildable_forward_witness :
  Causes.forward_unbuildable (enc_req := marshalRequestA) (url_parser := parseURL)
    Deployment.misconfigured "01310100" /\
  value (Fixture.handleCEP (cepBody "01310100")) Deployment.misconfigured
  = gin.JSON 500%Z
      (ServiceA.OfErrorResponse (ServiceA.mkErrorResponse "internal server error")) /\
  sent (Fixture.handleCEP (cepBody "01310100")) Deployment.misconfigured = [].
Proof.
  assert (Hcause : Causes.forward_unbuildable (enc_req := marshalRequestA)
                     (url_parser := parseURL) Deployment.misconfigured "01310100").
  { right. eexists. reflexivity. }
  split; [exact Hcause|].
  apply (@handleCEP_unbuildable_forward decodeRequestA marshalRequestA decodeAny parseURL
           Deployment.misconfigured (cepBody "01310100")
           (ServiceA.mkCEPRequest "01310100") eq_refl eq_refl Hcause).
Defined.

(** São Paulo through both services, without a credential. *)
Lemma edge_over_orchestrator_witness :
  value (Fixture.handleWeather (cepBody "01310100")) noCredential
  = gin.JSON 200%Z
      (ServiceB.OfWeatherResponse
         (ServiceB.mkWeatherResponse "São Paulo" 22.5%float 72.5%float 295.5%float)) /\
  value (Fixture.handleCEP (cepBody "01310100")) (orchestrator 200 resultBody)
  = gin.JSON 200%Z (ServiceA.OfInterface resultValue).
Proof.
  split; [reflexivity|].
  apply (@edge_over_orchestrator decodeRequestA marshalRequestA decodeAny
           decodeRequestB decodeViaCEP decodeWeather Deployment.marshalPayloadB parseURL
           (orchestrator 200 resultBody) noCredential (cepBody "01310100")
           (ServiceA.mkCEPRequest "01310100")
           (http.mkRequest "POST" orchestratorURL
              [("Content-Type", "application/json")] (Some (cepBody "01310100")))
           (cepBody "01310100") resultBody resultValue);
    try reflexivity.
  eexists. eexists. split; [reflexivity|]. split; reflexivity.
Defined.

(** Other variables and another host do not change the run. *)
Lemma handleWeather_frame_witness :
  run (Fixture.handleWeather (cepBody "01310100")) noCredential
  = run (Fixture.handleWeather (cepBody "01310100")) Deployment.otherEnvironment.
Proof.
  apply (@handleWeather_frame decodeRequestB decodeViaCEP decodeWeather parseURL
           noCredential Deployment.otherEnvironment (cepBody "01310100") eq_refl).
  intros req [<- | []]. reflexivity.
Defined.

End FurtherInstances.
